(** * Energy-storage arbitrage simulator: storage model and threshold strategy

    A shallow embedding of [models/energy_storage.py] (class [EnergyStorage])
    and [strategies/threshold_lookahead.py] (function [threshold_lookahead]),
    followed by the properties of the specification that concern them.

    Numbers.  The Python program computes with binary floating point.  Here
    every float is an exact rational ([Q]): [+], [-], [*], [/] and the
    comparisons are the exact ones, and a decimal literal such as [0.25] is the
    rational it denotes.  Equalities between computed quantities are therefore
    stated with [==] ([Qeq]).  Rounding error, NaN and overflow are outside the
    model; the literal [float("inf")] is kept as a separate value ([PosInf]).

    Exceptions.  The only operations of the modelled code that can raise are
    the division [amount / self.capacity] (ZeroDivisionError) and the indexing
    [price_array[idx]] (IndexError).  A method call yields a [result] together
    with the storage object as the call leaves it, since a Python object keeps
    the mutations performed before an exception is raised. *)

From Stdlib Require Import QArith Qminmax Qround Qabs ZArith List Bool Lia Lqa.
Import ListNotations.

Open Scope Q_scope.

(** ** Python values *)

Inductive exn : Type :=
| ZeroDivisionError
| IndexError.

Inductive result (A : Type) : Type :=
| Returns (a : A)
| Raises (e : exn).

Arguments Returns {A} a.
Arguments Raises {A} e.

(** [a < b] on floats, as a boolean. *)
Definition Qlt_bool (a b : Q) : bool := negb (Qle_bool b a).

(** Python's builtin [min(a, b)]: the first argument unless the second is
    strictly smaller. *)
Definition py_min (a b : Q) : Q := if Qlt_bool b a then b else a.

(** Python's builtin [max(a, b)]: the first argument unless the second is
    strictly greater. *)
Definition py_max (a b : Q) : Q := if Qlt_bool a b then b else a.

(** True division [a / b]; raises ZeroDivisionError when [b] is zero. *)
Definition py_div (a b : Q) : result Q :=
  if Qeq_bool b 0 then Raises ZeroDivisionError else Returns (a / b).

(** ** Transactions

    The dictionaries appended to [self.transactions].  The two kinds have
    different keys; the key ["type"] is the constructor of [Transaction]. *)

Module ChargeTx.
Record t : Type := {
  amount : Q;
  price : Q;
  energy_cost : Q;
  transaction_fee : Q;
  cost : Q;
  energy_level : Q;
  index : Z;
  interval : Z
}.
End ChargeTx.

Module DischargeTx.
Record t : Type := {
  amount_gross : Q;
  amount_usable : Q;
  energy_loss : Q;
  price : Q;
  gross_revenue : Q;
  efficiency_loss : Q;
  energy_revenue : Q;
  transaction_fee : Q;
  revenue : Q;
  energy_level : Q;
  index : Z;
  interval : Z
}.
End DischargeTx.

Inductive Transaction : Type :=
| charge (tx : ChargeTx.t)
| discharge (tx : DischargeTx.t).

(** ** The storage object *)

Record EnergyStorage : Type := {
  capacity : Q;
  charge_rate : Q;
  max_power : Q;
  efficiency : Q;
  fee_per_mwh : Q;
  energy_level : Q;
  cash : Q;
  transactions : list Transaction;
  is_charging : bool;
  is_discharging : bool;
  charging_price : Q;
  discharging_price : Q;
  charging_start_index : Z;
  current_interval : Z;
  total_charged_energy : Q;
  total_discharged_energy : Q;
  total_gross_energy : Q;
  total_charge_cost : Q;
  total_discharge_revenue : Q;
  gross_energy_revenue : Q;
  efficiency_losses : Q;
  energy_losses : Q;
  total_cycles : Q;
  daily_cycles : Q;
  operation_time_days : Z
}.

(** [EnergyStorage.__init__]. *)
Definition __init__ (capacity_mwh charge_rate efficiency fee_per_mwh : Q)
  : EnergyStorage :=
  {| capacity := capacity_mwh;
     charge_rate := charge_rate;
     max_power := capacity_mwh * charge_rate;
     efficiency := efficiency;
     fee_per_mwh := fee_per_mwh;
     energy_level := 0;
     cash := 0;
     transactions := [];
     is_charging := false;
     is_discharging := false;
     charging_price := 0;
     discharging_price := 0;
     charging_start_index := (-1)%Z;
     current_interval := 0%Z;
     total_charged_energy := 0;
     total_discharged_energy := 0;
     total_gross_energy := 0;
     total_charge_cost := 0;
     total_discharge_revenue := 0;
     gross_energy_revenue := 0;
     efficiency_losses := 0;
     energy_losses := 0;
     total_cycles := 0;
     daily_cycles := 0;
     operation_time_days := 0%Z |}.

(** *** Attribute assignment

    [set_f v self] is the object after [self.f = v]. *)

Definition set_energy_level (v : Q) (self : EnergyStorage) : EnergyStorage :=
  {| capacity := capacity self; charge_rate := charge_rate self;
     max_power := max_power self; efficiency := efficiency self;
     fee_per_mwh := fee_per_mwh self; energy_level := v; cash := cash self;
     transactions := transactions self; is_charging := is_charging self;
     is_discharging := is_discharging self;
     charging_price := charging_price self;
     discharging_price := discharging_price self;
     charging_start_index := charging_start_index self;
     current_interval := current_interval self;
     total_charged_energy := total_charged_energy self;
     total_discharged_energy := total_discharged_energy self;
     total_gross_energy := total_gross_energy self;
     total_charge_cost := total_charge_cost self;
     total_discharge_revenue := total_discharge_revenue self;
     gross_energy_revenue := gross_energy_revenue self;
     efficiency_losses := efficiency_losses self;
     energy_losses := energy_losses self; total_cycles := total_cycles self;
     daily_cycles := daily_cycles self;
     operation_time_days := operation_time_days self |}.

Definition set_cash (v : Q) (self : EnergyStorage) : EnergyStorage :=
  {| capacity := capacity self; charge_rate := charge_rate self;
     max_power := max_power self; efficiency := efficiency self;
     fee_per_mwh := fee_per_mwh self; energy_level := energy_level self;
     cash := v; transactions := transactions self;
     is_charging := is_charging self; is_discharging := is_discharging self;
     charging_price := charging_price self;
     discharging_price := discharging_price self;
     charging_start_index := charging_start_index self;
     current_interval := current_interval self;
     total_charged_energy := total_charged_energy self;
     total_discharged_energy := total_discharged_energy self;
     total_gross_energy := total_gross_energy self;
     total_charge_cost := total_charge_cost self;
     total_discharge_revenue := total_discharge_revenue self;
     gross_energy_revenue := gross_energy_revenue self;
     efficiency_losses := efficiency_losses self;
     energy_losses := energy_losses self; total_cycles := total_cycles self;
     daily_cycles := daily_cycles self;
     operation_time_days := operation_time_days self |}.

Definition set_transactions (v : list Transaction) (self : EnergyStorage) : EnergyStorage :=
  {| capacity := capacity self; charge_rate := charge_rate self;
     max_power := max_power self; efficiency := efficiency self;
     fee_per_mwh := fee_per_mwh self; energy_level := energy_level self;
     cash := cash self; transactions := v; is_charging := is_charging self;
     is_discharging := is_discharging self;
     charging_price := charging_price self;
     discharging_price := discharging_price self;
     charging_start_index := charging_start_index self;
     current_interval := current_interval self;
     total_charged_energy := total_charged_energy self;
     total_discharged_energy := total_discharged_energy self;
     total_gross_energy := total_gross_energy self;
     total_charge_cost := total_charge_cost self;
     total_discharge_revenue := total_discharge_revenue self;
     gross_energy_revenue := gross_energy_revenue self;
     efficiency_losses := efficiency_losses self;
     energy_losses := energy_losses self; total_cycles := total_cycles self;
     daily_cycles := daily_cycles self;
     operation_time_days := operation_time_days self |}.

Definition set_is_charging (v : bool) (self : EnergyStorage) : EnergyStorage :=
  {| capacity := capacity self; charge_rate := charge_rate self;
     max_power := max_power self; efficiency := efficiency self;
     fee_per_mwh := fee_per_mwh self; energy_level := energy_level self;
     cash := cash self; transactions := transactions self; is_charging := v;
     is_discharging := is_discharging self;
     charging_price := charging_price self;
     discharging_price := discharging_price self;
     charging_start_index := charging_start_index self;
     current_interval := current_interval self;
     total_charged_energy := total_charged_energy self;
     total_discharged_energy := total_discharged_energy self;
     total_gross_energy := total_gross_energy self;
     total_charge_cost := total_charge_cost self;
     total_discharge_revenue := total_discharge_revenue self;
     gross_energy_revenue := gross_energy_revenue self;
     efficiency_losses := efficiency_losses self;
     energy_losses := energy_losses self; total_cycles := total_cycles self;
     daily_cycles := daily_cycles self;
     operation_time_days := operation_time_days self |}.

Definition set_is_discharging (v : bool) (self : EnergyStorage) : EnergyStorage :=
  {| capacity := capacity self; charge_rate := charge_rate self;
     max_power := max_power self; efficiency := efficiency self;
     fee_per_mwh := fee_per_mwh self; energy_level := energy_level self;
     cash := cash self; transactions := transactions self;
     is_charging := is_charging self; is_discharging := v;
     charging_price := charging_price self;
     discharging_price := discharging_price self;
     charging_start_index := charging_start_index self;
     current_interval := current_interval self;
     total_charged_energy := total_charged_energy self;
     total_discharged_energy := total_discharged_energy self;
     total_gross_energy := total_gross_energy self;
     total_charge_cost := total_charge_cost self;
     total_discharge_revenue := total_discharge_revenue self;
     gross_energy_revenue := gross_energy_revenue self;
     efficiency_losses := efficiency_losses self;
     energy_losses := energy_losses self; total_cycles := total_cycles self;
     daily_cycles := daily_cycles self;
     operation_time_days := operation_time_days self |}.

Definition set_charging_price (v : Q) (self : EnergyStorage) : EnergyStorage :=
  {| capacity := capacity self; charge_rate := charge_rate self;
     max_power := max_power self; efficiency := efficiency self;
     fee_per_mwh := fee_per_mwh self; energy_level := energy_level self;
     cash := cash self; transactions := transactions self;
     is_charging := is_charging self; is_discharging := is_discharging self;
     charging_price := v; discharging_price := discharging_price self;
     charging_start_index := charging_start_index self;
     current_interval := current_interval self;
     total_charged_energy := total_charged_energy self;
     total_discharged_energy := total_discharged_energy self;
     total_gross_energy := total_gross_energy self;
     total_charge_cost := total_charge_cost self;
     total_discharge_revenue := total_discharge_revenue self;
     gross_energy_revenue := gross_energy_revenue self;
     efficiency_losses := efficiency_losses self;
     energy_losses := energy_losses self; total_cycles := total_cycles self;
     daily_cycles := daily_cycles self;
     operation_time_days := operation_time_days self |}.

Definition set_discharging_price (v : Q) (self : EnergyStorage) : EnergyStorage :=
  {| capacity := capacity self; charge_rate := charge_rate self;
     max_power := max_power self; efficiency := efficiency self;
     fee_per_mwh := fee_per_mwh self; energy_level := energy_level self;
     cash := cash self; transactions := transactions self;
     is_charging := is_charging self; is_discharging := is_discharging self;
     charging_price := charging_price self; discharging_price := v;
     charging_start_index := charging_start_index self;
     current_interval := current_interval self;
     total_charged_energy := total_charged_energy self;
     total_discharged_energy := total_discharged_energy self;
     total_gross_energy := total_gross_energy self;
     total_charge_cost := total_charge_cost self;
     total_discharge_revenue := total_discharge_revenue self;
     gross_energy_revenue := gross_energy_revenue self;
     efficiency_losses := efficiency_losses self;
     energy_losses := energy_losses self; total_cycles := total_cycles self;
     daily_cycles := daily_cycles self;
     operation_time_days := operation_time_days self |}.

Definition set_charging_start_index (v : Z) (self : EnergyStorage) : EnergyStorage :=
  {| capacity := capacity self; charge_rate := charge_rate self;
     max_power := max_power self; efficiency := efficiency self;
     fee_per_mwh := fee_per_mwh self; energy_level := energy_level self;
     cash := cash self; transactions := transactions self;
     is_charging := is_charging self; is_discharging := is_discharging self;
     charging_price := charging_price self;
     discharging_price := discharging_price self; charging_start_index := v;
     current_interval := current_interval self;
     total_charged_energy := total_charged_energy self;
     total_discharged_energy := total_discharged_energy self;
     total_gross_energy := total_gross_energy self;
     total_charge_cost := total_charge_cost self;
     total_discharge_revenue := total_discharge_revenue self;
     gross_energy_revenue := gross_energy_revenue self;
     efficiency_losses := efficiency_losses self;
     energy_losses := energy_losses self; total_cycles := total_cycles self;
     daily_cycles := daily_cycles self;
     operation_time_days := operation_time_days self |}.

Definition set_current_interval (v : Z) (self : EnergyStorage) : EnergyStorage :=
  {| capacity := capacity self; charge_rate := charge_rate self;
     max_power := max_power self; efficiency := efficiency self;
     fee_per_mwh := fee_per_mwh self; energy_level := energy_level self;
     cash := cash self; transactions := transactions self;
     is_charging := is_charging self; is_discharging := is_discharging self;
     charging_price := charging_price self;
     discharging_price := discharging_price self;
     charging_start_index := charging_start_index self;
     current_interval := v;
     total_charged_energy := total_charged_energy self;
     total_discharged_energy := total_discharged_energy self;
     total_gross_energy := total_gross_energy self;
     total_charge_cost := total_charge_cost self;
     total_discharge_revenue := total_discharge_revenue self;
     gross_energy_revenue := gross_energy_revenue self;
     efficiency_losses := efficiency_losses self;
     energy_losses := energy_losses self; total_cycles := total_cycles self;
     daily_cycles := daily_cycles self;
     operation_time_days := operation_time_days self |}.

Definition set_total_charged_energy (v : Q) (self : EnergyStorage) : EnergyStorage :=
  {| capacity := capacity self; charge_rate := charge_rate self;
     max_power := max_power self; efficiency := efficiency self;
     fee_per_mwh := fee_per_mwh self; energy_level := energy_level self;
     cash := cash self; transactions := transactions self;
     is_charging := is_charging self; is_discharging := is_discharging self;
     charging_price := charging_price self;
     discharging_price := discharging_price self;
     charging_start_index := charging_start_index self;
     current_interval := current_interval self; total_charged_energy := v;
     total_discharged_energy := total_discharged_energy self;
     total_gross_energy := total_gross_energy self;
     total_charge_cost := total_charge_cost self;
     total_discharge_revenue := total_discharge_revenue self;
     gross_energy_revenue := gross_energy_revenue self;
     efficiency_losses := efficiency_losses self;
     energy_losses := energy_losses self; total_cycles := total_cycles self;
     daily_cycles := daily_cycles self;
     operation_time_days := operation_time_days self |}.

Definition set_total_discharged_energy (v : Q) (self : EnergyStorage) : EnergyStorage :=
  {| capacity := capacity self; charge_rate := charge_rate self;
     max_power := max_power self; efficiency := efficiency self;
     fee_per_mwh := fee_per_mwh self; energy_level := energy_level self;
     cash := cash self; transactions := transactions self;
     is_charging := is_charging self; is_discharging := is_discharging self;
     charging_price := charging_price self;
     discharging_price := discharging_price self;
     charging_start_index := charging_start_index self;
     current_interval := current_interval self;
     total_charged_energy := total_charged_energy self;
     total_discharged_energy := v;
     total_gross_energy := total_gross_energy self;
     total_charge_cost := total_charge_cost self;
     total_discharge_revenue := total_discharge_revenue self;
     gross_energy_revenue := gross_energy_revenue self;
     efficiency_losses := efficiency_losses self;
     energy_losses := energy_losses self; total_cycles := total_cycles self;
     daily_cycles := daily_cycles self;
     operation_time_days := operation_time_days self |}.

Definition set_total_gross_energy (v : Q) (self : EnergyStorage) : EnergyStorage :=
  {| capacity := capacity self; charge_rate := charge_rate self;
     max_power := max_power self; efficiency := efficiency self;
     fee_per_mwh := fee_per_mwh self; energy_level := energy_level self;
     cash := cash self; transactions := transactions self;
     is_charging := is_charging self; is_discharging := is_discharging self;
     charging_price := charging_price self;
     discharging_price := discharging_price self;
     charging_start_index := charging_start_index self;
     current_interval := current_interval self;
     total_charged_energy := total_charged_energy self;
     total_discharged_energy := total_discharged_energy self;
     total_gross_energy := v; total_charge_cost := total_charge_cost self;
     total_discharge_revenue := total_discharge_revenue self;
     gross_energy_revenue := gross_energy_revenue self;
     efficiency_losses := efficiency_losses self;
     energy_losses := energy_losses self; total_cycles := total_cycles self;
     daily_cycles := daily_cycles self;
     operation_time_days := operation_time_days self |}.

Definition set_total_charge_cost (v : Q) (self : EnergyStorage) : EnergyStorage :=
  {| capacity := capacity self; charge_rate := charge_rate self;
     max_power := max_power self; efficiency := efficiency self;
     fee_per_mwh := fee_per_mwh self; energy_level := energy_level self;
     cash := cash self; transactions := transactions self;
     is_charging := is_charging self; is_discharging := is_discharging self;
     charging_price := charging_price self;
     discharging_price := discharging_price self;
     charging_start_index := charging_start_index self;
     current_interval := current_interval self;
     total_charged_energy := total_charged_energy self;
     total_discharged_energy := total_discharged_energy self;
     total_gross_energy := total_gross_energy self; total_charge_cost := v;
     total_discharge_revenue := total_discharge_revenue self;
     gross_energy_revenue := gross_energy_revenue self;
     efficiency_losses := efficiency_losses self;
     energy_losses := energy_losses self; total_cycles := total_cycles self;
     daily_cycles := daily_cycles self;
     operation_time_days := operation_time_days self |}.

Definition set_total_discharge_revenue (v : Q) (self : EnergyStorage) : EnergyStorage :=
  {| capacity := capacity self; charge_rate := charge_rate self;
     max_power := max_power self; efficiency := efficiency self;
     fee_per_mwh := fee_per_mwh self; energy_level := energy_level self;
     cash := cash self; transactions := transactions self;
     is_charging := is_charging self; is_discharging := is_discharging self;
     charging_price := charging_price self;
     discharging_price := discharging_price self;
     charging_start_index := charging_start_index self;
     current_interval := current_interval self;
     total_charged_energy := total_charged_energy self;
     total_discharged_energy := total_discharged_energy self;
     total_gross_energy := total_gross_energy self;
     total_charge_cost := total_charge_cost self;
     total_discharge_revenue := v;
     gross_energy_revenue := gross_energy_revenue self;
     efficiency_losses := efficiency_losses self;
     energy_losses := energy_losses self; total_cycles := total_cycles self;
     daily_cycles := daily_cycles self;
     operation_time_days := operation_time_days self |}.

Definition set_gross_energy_revenue (v : Q) (self : EnergyStorage) : EnergyStorage :=
  {| capacity := capacity self; charge_rate := charge_rate self;
     max_power := max_power self; efficiency := efficiency self;
     fee_per_mwh := fee_per_mwh self; energy_level := energy_level self;
     cash := cash self; transactions := transactions self;
     is_charging := is_charging self; is_discharging := is_discharging self;
     charging_price := charging_price self;
     discharging_price := discharging_price self;
     charging_start_index := charging_start_index self;
     current_interval := current_interval self;
     total_charged_energy := total_charged_energy self;
     total_discharged_energy := total_discharged_energy self;
     total_gross_energy := total_gross_energy self;
     total_charge_cost := total_charge_cost self;
     total_discharge_revenue := total_discharge_revenue self;
     gross_energy_revenue := v; efficiency_losses := efficiency_losses self;
     energy_losses := energy_losses self; total_cycles := total_cycles self;
     daily_cycles := daily_cycles self;
     operation_time_days := operation_time_days self |}.

Definition set_efficiency_losses (v : Q) (self : EnergyStorage) : EnergyStorage :=
  {| capacity := capacity self; charge_rate := charge_rate self;
     max_power := max_power self; efficiency := efficiency self;
     fee_per_mwh := fee_per_mwh self; energy_level := energy_level self;
     cash := cash self; transactions := transactions self;
     is_charging := is_charging self; is_discharging := is_discharging self;
     charging_price := charging_price self;
     discharging_price := discharging_price self;
     charging_start_index := charging_start_index self;
     current_interval := current_interval self;
     total_charged_energy := total_charged_energy self;
     total_discharged_energy := total_discharged_energy self;
     total_gross_energy := total_gross_energy self;
     total_charge_cost := total_charge_cost self;
     total_discharge_revenue := total_discharge_revenue self;
     gross_energy_revenue := gross_energy_revenue self;
     efficiency_losses := v; energy_losses := energy_losses self;
     total_cycles := total_cycles self; daily_cycles := daily_cycles self;
     operation_time_days := operation_time_days self |}.

Definition set_energy_losses (v : Q) (self : EnergyStorage) : EnergyStorage :=
  {| capacity := capacity self; charge_rate := charge_rate self;
     max_power := max_power self; efficiency := efficiency self;
     fee_per_mwh := fee_per_mwh self; energy_level := energy_level self;
     cash := cash self; transactions := transactions self;
     is_charging := is_charging self; is_discharging := is_discharging self;
     charging_price := charging_price self;
     discharging_price := discharging_price self;
     charging_start_index := charging_start_index self;
     current_interval := current_interval self;
     total_charged_energy := total_charged_energy self;
     total_discharged_energy := total_discharged_energy self;
     total_gross_energy := total_gross_energy self;
     total_charge_cost := total_charge_cost self;
     total_discharge_revenue := total_discharge_revenue self;
     gross_energy_revenue := gross_energy_revenue self;
     efficiency_losses := efficiency_losses self; energy_losses := v;
     total_cycles := total_cycles self; daily_cycles := daily_cycles self;
     operation_time_days := operation_time_days self |}.

Definition set_total_cycles (v : Q) (self : EnergyStorage) : EnergyStorage :=
  {| capacity := capacity self; charge_rate := charge_rate self;
     max_power := max_power self; efficiency := efficiency self;
     fee_per_mwh := fee_per_mwh self; energy_level := energy_level self;
     cash := cash self; transactions := transactions self;
     is_charging := is_charging self; is_discharging := is_discharging self;
     charging_price := charging_price self;
     discharging_price := discharging_price self;
     charging_start_index := charging_start_index self;
     current_interval := current_interval self;
     total_charged_energy := total_charged_energy self;
     total_discharged_energy := total_discharged_energy self;
     total_gross_energy := total_gross_energy self;
     total_charge_cost := total_charge_cost self;
     total_discharge_revenue := total_discharge_revenue self;
     gross_energy_revenue := gross_energy_revenue self;
     efficiency_losses := efficiency_losses self;
     energy_losses := energy_losses self; total_cycles := v;
     daily_cycles := daily_cycles self;
     operation_time_days := operation_time_days self |}.

Definition set_daily_cycles (v : Q) (self : EnergyStorage) : EnergyStorage :=
  {| capacity := capacity self; charge_rate := charge_rate self;
     max_power := max_power self; efficiency := efficiency self;
     fee_per_mwh := fee_per_mwh self; energy_level := energy_level self;
     cash := cash self; transactions := transactions self;
     is_charging := is_charging self; is_discharging := is_discharging self;
     charging_price := charging_price self;
     discharging_price := discharging_price self;
     charging_start_index := charging_start_index self;
     current_interval := current_interval self;
     total_charged_energy := total_charged_energy self;
     total_discharged_energy := total_discharged_energy self;
     total_gross_energy := total_gross_energy self;
     total_charge_cost := total_charge_cost self;
     total_discharge_revenue := total_discharge_revenue self;
     gross_energy_revenue := gross_energy_revenue self;
     efficiency_losses := efficiency_losses self;
     energy_losses := energy_losses self; total_cycles := total_cycles self;
     daily_cycles := v; operation_time_days := operation_time_days self |}.

(** *** Methods *)



(** Property [cycles_completed]. *)
Definition cycles_completed (self : EnergyStorage) : Q := daily_cycles self.

Definition is_processing (self : EnergyStorage) : bool :=
  is_charging self || is_discharging self.

Definition _charge_step (price : Q) (time_index : Z) (self : EnergyStorage)
  : result bool * EnergyStorage :=
  let max_charge := max_power self * 0.25 in
  let available_capacity := capacity self - energy_level self in
  let amount := py_min max_charge available_capacity in
  if Qle_bool amount 0 then
    let self := set_is_charging false self in
    (Returns false, self)
  else
    let energy_cost := amount * price in
    let transaction_fee := amount * fee_per_mwh self in
    let cost := energy_cost + transaction_fee in
    let self := set_energy_level (energy_level self + amount) self in
    let self := set_cash (cash self - cost) self in
    let self := set_total_charged_energy (total_charged_energy self + amount) self in
    let self := set_total_charge_cost (total_charge_cost self + cost) self in
    let transaction :=
      charge {| ChargeTx.amount := amount;
                ChargeTx.price := price;
                ChargeTx.energy_cost := energy_cost;
                ChargeTx.transaction_fee := transaction_fee;
                ChargeTx.cost := cost;
                ChargeTx.energy_level := energy_level self;
                ChargeTx.index := time_index;
                ChargeTx.interval := current_interval self |} in
    let self := set_transactions (transactions self ++ [transaction]) self in
    (Returns true, self).

Definition _discharge_step (price : Q) (time_index : Z) (self : EnergyStorage)
  : result bool * EnergyStorage :=
  let max_discharge := max_power self * 0.25 in
  let amount := py_min max_discharge (energy_level self) in
  if Qle_bool amount 0 then
    let self := set_is_discharging false self in
    (Returns false, self)
  else
    let gross_energy := amount in
    let usable_energy := amount * efficiency self in
    let energy_loss := amount * (1 - efficiency self) in
    let gross_revenue := amount * price in
    let efficiency_loss := gross_revenue * (1 - efficiency self) in
    let energy_revenue := usable_energy * price in
    let transaction_fee := usable_energy * fee_per_mwh self in
    let revenue := energy_revenue - transaction_fee in
    let self := set_energy_level (energy_level self - amount) self in
    let self := set_cash (cash self + revenue) self in
    let self := set_total_gross_energy (total_gross_energy self + gross_energy) self in
    let self :=
      set_total_discharged_energy (total_discharged_energy self + usable_energy) self in
    let self :=
      set_total_discharge_revenue (total_discharge_revenue self + revenue) self in
    let self := set_gross_energy_revenue (gross_energy_revenue self + gross_revenue) self in
    let self := set_efficiency_losses (efficiency_losses self + efficiency_loss) self in
    let self := set_energy_losses (energy_losses self + energy_loss) self in
    let transaction :=
      discharge {| DischargeTx.amount_gross := gross_energy;
                   DischargeTx.amount_usable := usable_energy;
                   DischargeTx.energy_loss := energy_loss;
                   DischargeTx.price := price;
                   DischargeTx.gross_revenue := gross_revenue;
                   DischargeTx.efficiency_loss := efficiency_loss;
                   DischargeTx.energy_revenue := energy_revenue;
                   DischargeTx.transaction_fee := transaction_fee;
                   DischargeTx.revenue := revenue;
                   DischargeTx.energy_level := energy_level self;
                   DischargeTx.index := time_index;
                   DischargeTx.interval := current_interval self |} in
    let self := set_transactions (transactions self ++ [transaction]) self in
    match py_div amount (capacity self) with
    | Raises e => (Raises e, self)
    | Returns cycle_fraction =>
        let self := set_daily_cycles (daily_cycles self + cycle_fraction) self in
        let self := set_total_cycles (total_cycles self + cycle_fraction) self in
        (Returns true, self)
    end.

Definition start_charging (price : Q) (time_index : Z) (self : EnergyStorage)
  : result bool * EnergyStorage :=
  if is_charging self || is_discharging self then (Returns false, self)
  else if Qle_bool (capacity self) (energy_level self) then (Returns false, self)
  else
    let self := set_is_charging true self in
    let self := set_charging_price price self in
    let self := set_charging_start_index time_index self in
    let self := set_current_interval 0%Z self in
    _charge_step price time_index self.

Definition start_discharging (price : Q) (time_index : Z) (self : EnergyStorage)
  : result bool * EnergyStorage :=
  if is_charging self || is_discharging self then (Returns false, self)
  else if Qle_bool (energy_level self) 0 then (Returns false, self)
  else
    let self := set_is_discharging true self in
    let self := set_discharging_price price self in
    let self := set_charging_start_index time_index self in
    let self := set_current_interval 0%Z self in
    _discharge_step price time_index self.

Definition continue_process (time_index : Z) (self : EnergyStorage)
  : result bool * EnergyStorage :=
  let self := set_current_interval (current_interval self + 1)%Z self in
  if is_charging self then _charge_step (charging_price self) time_index self
  else if is_discharging self then
    _discharge_step (discharging_price self) time_index self
  else (Returns false, self).

Definition get_actual_efficiency (self : EnergyStorage) : Q :=
  if Qeq_bool (gross_energy_revenue self) 0 then 0
  else (gross_energy_revenue self - efficiency_losses self)
       / gross_energy_revenue self * 100.

Definition get_energy_efficiency (self : EnergyStorage) : Q :=
  if Qeq_bool (total_charged_energy self) 0 then 0
  else total_discharged_energy self / total_charged_energy self * 100.

(** [reset_daily_transactions] returns [None]. *)
Definition reset_daily_transactions (self : EnergyStorage) : EnergyStorage :=
  let self := set_transactions [] self in
  let self := set_is_charging false self in
  let self := set_is_discharging false self in
  let self := set_daily_cycles 0 self in
  self.

(** ** Calls on a storage object

    The ways in which client code acts on a storage: the four public methods
    and the two attribute writes [storage.is_charging = False] and
    [storage.is_discharging = False] that [threshold_lookahead] performs
    directly.  [exec c s] is the object after the call, whether the call
    returned or raised. *)

Inductive call : Type :=
| StartCharging (price : Q) (time_index : Z)
| StartDischarging (price : Q) (time_index : Z)
| ContinueProcess (time_index : Z)
| ResetDailyTransactions
| ClearIsCharging
| ClearIsDischarging.

Definition invoke (c : call) (self : EnergyStorage) : result bool * EnergyStorage :=
  match c with
  | StartCharging price time_index => start_charging price time_index self
  | StartDischarging price time_index => start_discharging price time_index self
  | ContinueProcess time_index => continue_process time_index self
  | ResetDailyTransactions => (Returns false, reset_daily_transactions self)
  | ClearIsCharging => (Returns false, set_is_charging false self)
  | ClearIsDischarging => (Returns false, set_is_discharging false self)
  end.

Definition exec (c : call) (self : EnergyStorage) : EnergyStorage :=
  snd (invoke c self).

Definition run_calls (cs : list call) (self : EnergyStorage) : EnergyStorage :=
  fold_left (fun s c => exec c s) cs self.

Definition is_reset (c : call) : bool :=
  match c with ResetDailyTransactions => true | _ => false end.

Definition no_reset (c : call) : bool := negb (is_reset c).

(** Sum over the discharge transactions of a log of [amount_gross / capacity]. *)
Fixpoint discharged_cycles (capacity : Q) (log : list Transaction) : Q :=
  match log with
  | [] => 0
  | charge _ :: log' => discharged_cycles capacity log'
  | discharge tx :: log' =>
      DischargeTx.amount_gross tx / capacity + discharged_cycles capacity log'
  end.

(** ** numpy

    [np.percentile] (default method, linear interpolation between the two
    closest ranks of the sorted data) and [np.mean], on exact rationals.
    Both are only called on the non-empty slice [future_prices]. *)

Fixpoint insert_sorted (x : Q) (l : list Q) : list Q :=
  match l with
  | [] => [x]
  | y :: l' => if Qle_bool x y then x :: l else y :: insert_sorted x l'
  end.

Definition sorted (l : list Q) : list Q := fold_right insert_sorted [] l.

Module np.
Definition percentile (a : list Q) (q : Q) : Q :=
  let arr := sorted a in
  let n := Z.of_nat (length a) in
  let virtual_index := inject_Z (n - 1) * (q / 100) in
  let previous_index := Qfloor virtual_index in
  let next_index := Z.min (previous_index + 1) (n - 1) in
  let gamma := virtual_index - inject_Z previous_index in
  let lo := nth (Z.to_nat previous_index) arr 0 in
  let hi := nth (Z.to_nat next_index) arr 0 in
  lo + (hi - lo) * gamma.

Definition mean (a : list Q) : Q :=
  fold_left Qplus a 0 / inject_Z (Z.of_nat (length a)).
End np.

(** ** The strategy: [threshold_lookahead] *)

(** Values of [last_charge_price]: a price or [float("inf")]. *)
Inductive float_inf : Type :=
| Finite (x : Q)
| PosInf.

(** [a * k] for a positive factor [k]. *)
Definition inf_mul (a : float_inf) (k : Q) : float_inf :=
  match a with Finite x => Finite (x * k) | PosInf => PosInf end.

(** [x < a]. *)
Definition lt_inf (x : Q) (a : float_inf) : bool :=
  match a with Finite y => Qlt_bool x y | PosInf => true end.

(** [a == float("inf")]. *)
Definition is_inf (a : float_inf) : bool :=
  match a with Finite _ => false | PosInf => true end.

Module HistoryEntry.
Record t : Type := {
  time_index : nat;
  energy_level : Q;
  action : Z
}.
End HistoryEntry.

Definition ROLLING_WINDOW_SIZE : Z := 6.

(** The local variables of [threshold_lookahead] that live across loop
    iterations, and the storage object it was given.  [current_price] is
    unbound ([None]) until the first iteration that evaluates a decision. *)
Record Locals : Type := {
  idx : nat;
  energy_history : list HistoryEntry.t;
  charge_target : option Q;
  discharge_target : option Q;
  current_operation_price : option Q;
  last_discharge_price : Q;
  last_charge_price : float_inf;
  current_price : option Q;
  storage : EnergyStorage
}.

Definition set_idx (v : nat) (st : Locals) : Locals :=
  {| idx := v; energy_history := energy_history st;
     charge_target := charge_target st;
     discharge_target := discharge_target st;
     current_operation_price := current_operation_price st;
     last_discharge_price := last_discharge_price st;
     last_charge_price := last_charge_price st;
     current_price := current_price st; storage := storage st |}.

Definition set_energy_history (v : list HistoryEntry.t) (st : Locals) : Locals :=
  {| idx := idx st; energy_history := v; charge_target := charge_target st;
     discharge_target := discharge_target st;
     current_operation_price := current_operation_price st;
     last_discharge_price := last_discharge_price st;
     last_charge_price := last_charge_price st;
     current_price := current_price st; storage := storage st |}.

Definition set_charge_target (v : option Q) (st : Locals) : Locals :=
  {| idx := idx st; energy_history := energy_history st; charge_target := v;
     discharge_target := discharge_target st;
     current_operation_price := current_operation_price st;
     last_discharge_price := last_discharge_price st;
     last_charge_price := last_charge_price st;
     current_price := current_price st; storage := storage st |}.

Definition set_discharge_target (v : option Q) (st : Locals) : Locals :=
  {| idx := idx st; energy_history := energy_history st;
     charge_target := charge_target st; discharge_target := v;
     current_operation_price := current_operation_price st;
     last_discharge_price := last_discharge_price st;
     last_charge_price := last_charge_price st;
     current_price := current_price st; storage := storage st |}.

Definition set_current_operation_price (v : option Q) (st : Locals) : Locals :=
  {| idx := idx st; energy_history := energy_history st;
     charge_target := charge_target st;
     discharge_target := discharge_target st; current_operation_price := v;
     last_discharge_price := last_discharge_price st;
     last_charge_price := last_charge_price st;
     current_price := current_price st; storage := storage st |}.

Definition set_last_discharge_price (v : Q) (st : Locals) : Locals :=
  {| idx := idx st; energy_history := energy_history st;
     charge_target := charge_target st;
     discharge_target := discharge_target st;
     current_operation_price := current_operation_price st;
     last_discharge_price := v; last_charge_price := last_charge_price st;
     current_price := current_price st; storage := storage st |}.

Definition set_last_charge_price (v : float_inf) (st : Locals) : Locals :=
  {| idx := idx st; energy_history := energy_history st;
     charge_target := charge_target st;
     discharge_target := discharge_target st;
     current_operation_price := current_operation_price st;
     last_discharge_price := last_discharge_price st; last_charge_price := v;
     current_price := current_price st; storage := storage st |}.

Definition set_current_price (v : option Q) (st : Locals) : Locals :=
  {| idx := idx st; energy_history := energy_history st;
     charge_target := charge_target st;
     discharge_target := discharge_target st;
     current_operation_price := current_operation_price st;
     last_discharge_price := last_discharge_price st;
     last_charge_price := last_charge_price st; current_price := v;
     storage := storage st |}.

Definition set_storage (v : EnergyStorage) (st : Locals) : Locals :=
  {| idx := idx st; energy_history := energy_history st;
     charge_target := charge_target st;
     discharge_target := discharge_target st;
     current_operation_price := current_operation_price st;
     last_discharge_price := last_discharge_price st;
     last_charge_price := last_charge_price st;
     current_price := current_price st; storage := v |}.
(** Statements of the loop body: a computation reads and updates the locals
    and either completes or raises. *)
Definition M (A : Type) : Type := Locals -> result A * Locals.

Definition ret {A : Type} (a : A) : M A := fun st => (Returns a, st).

Definition bind {A B : Type} (c : M A) (k : A -> M B) : M B :=
  fun st =>
    match c st with
    | (Returns a, st') => k a st'
    | (Raises e, st') => (Raises e, st')
    end.

Notation "c ;; k" := (bind c (fun _ => k))
  (at level 61, right associativity).

(** An assignment to locals. *)
Definition assign (f : Locals -> Locals) : M unit := fun st => (Returns tt, f st).

(** A method call on [storage]. *)
Definition on_storage (m : EnergyStorage -> result bool * EnergyStorage) : M bool :=
  fun st => let (r, s) := m (storage st) in (r, set_storage s st).

(** [idx += 1]. *)
Definition next_idx : M unit := assign (fun st => set_idx (S (idx st)) st).

(** The [logger.debug(f"...")] calls of a trade decision.  Their f-strings
    are evaluated whether or not the message is emitted, and two of them
    divide by [storage.capacity] (the state of charge in percent); nothing
    else of the logging is observable. *)
Definition log_state_of_charge : M unit := fun st =>
  if Qeq_bool (capacity (storage st)) 0 then (Raises ZeroDivisionError, st)
  else (Returns tt, st).

(** [energy_history.append({...})]. *)
Definition record_history : M unit :=
  assign (fun st =>
    let s := storage st in
    let entry :=
      {| HistoryEntry.time_index := idx st;
         HistoryEntry.energy_level := energy_level s;
         HistoryEntry.action :=
           if is_charging s then 1%Z
           else if is_discharging s then (-1)%Z else 0%Z |} in
    set_energy_history (energy_history st ++ [entry]) st).

(** The branch [if storage.is_processing():], up to its [idx += 1]. *)
Definition continue_operation : M unit := fun st =>
  let s := storage st in
  let i := Z.of_nat (idx st) in
  match (if is_charging s then charge_target st else None) with
  | Some target =>
      (* storage.is_charging and charge_target is not None *)
      if Qle_bool (target - 0.1) (energy_level s) then
        assign (fun st =>
          let st := set_storage (set_is_charging false (storage st)) st in
          let st := set_charge_target None st in
          set_current_operation_price None st) st
      else
        (on_storage (continue_process i) ;; ret tt) st
  | None =>
      match (if is_discharging s then discharge_target st else None) with
      | Some target =>
          (* storage.is_discharging and discharge_target is not None *)
          if Qle_bool (energy_level s) (target + 0.1) then
            assign (fun st =>
              let st := set_storage (set_is_discharging false (storage st)) st in
              let st := set_discharge_target None st in
              let st := set_current_operation_price None st in
              let st :=
                set_last_discharge_price
                  (match current_price st with Some p => p | None => 0 end) st in
              set_last_charge_price PosInf st) st
          else
            (on_storage (continue_process i) ;; ret tt) st
      | None =>
          (on_storage (continue_process i) ;; ret tt) st
      end
  end.

(** The buy decision: [Some charge_target] when the body of the innermost
    [if target_amount >= storage.capacity * 0.1:] is reached. *)
Definition charge_decision (s : EnergyStorage) (current_price : Q)
    (future_prices : list Q) (last_charge_price : float_inf) : option Q :=
  let buy_threshold_price := np.percentile future_prices 20 in
  let future_mean := np.mean future_prices in
  if Qlt_bool (energy_level s) (capacity s * 0.9) then
    let is_very_low_price := Qlt_bool current_price buy_threshold_price in
    let price_likely_to_rise := Qlt_bool (current_price * 1.2) future_mean in
    let is_better_than_last_charge :=
      lt_inf current_price (inf_mul last_charge_price 0.95) in
    if is_very_low_price && price_likely_to_rise
       && (is_better_than_last_charge || is_inf last_charge_price) then
      let available_capacity := capacity s - energy_level s in
      let target_amount :=
        if Qlt_bool current_price (np.percentile future_prices 10)
        then available_capacity * 0.8
        else available_capacity * 0.5 in
      if Qle_bool (capacity s * 0.1) target_amount then
        let charge_target := energy_level s + target_amount in
        Some (py_min charge_target (capacity s))
      else None
    else None
  else None.

(** The sell decision, likewise. *)
Definition discharge_decision (s : EnergyStorage) (current_price : Q)
    (future_prices : list Q) (last_discharge_price : Q) : option Q :=
  let sell_threshold_price := np.percentile future_prices 80 in
  let future_mean := np.mean future_prices in
  if Qlt_bool (capacity s * 0.1) (energy_level s) then
    let is_very_high_price := Qlt_bool sell_threshold_price current_price in
    let price_likely_to_fall := Qlt_bool future_mean (current_price * 0.9) in
    let is_better_than_last_discharge :=
      Qlt_bool (last_discharge_price * 1.05) current_price in
    if is_very_high_price && price_likely_to_fall
       && (is_better_than_last_discharge || Qeq_bool last_discharge_price 0) then
      let available_energy := energy_level s in
      let target_amount :=
        if Qlt_bool (np.percentile future_prices 90) current_price
        then available_energy * 0.8
        else available_energy * 0.5 in
      if Qle_bool (capacity s * 0.1) target_amount then
        let discharge_target := energy_level s - target_amount in
        Some (py_max discharge_target 0)
      else None
    else None
  else None.

Section Loop.
Variable price_array : list Q.
Variable window_size : Z.

(** The part of the loop body after the [continue] of the processing
    branch: a new decision at an index where no operation is running. *)
Definition decide_trade : M unit := fun st =>
  let T := length price_array in
  let i := Z.of_nat (idx st) in
  match nth_error price_array (idx st) with
  | None => (Raises IndexError, st)
  | Some price =>
      let st := set_current_price (Some price) st in
      let look_ahead_window := Z.min window_size (Z.of_nat T - i) in
      if (1 <=? look_ahead_window)%Z then
        let future_prices :=
          firstn (Z.to_nat look_ahead_window) (skipn (idx st) price_array) in
        match charge_decision (storage st) price future_prices
                (last_charge_price st) with
        | Some target =>
            (assign (set_charge_target (Some target)) ;;
             log_state_of_charge ;;
             assign (fun st =>
               let st := set_last_charge_price (Finite price) st in
               set_current_operation_price (Some price) st) ;;
             on_storage (start_charging price i) ;;
             assign (set_last_discharge_price 0) ;;
             next_idx) st
        | None =>
            match discharge_decision (storage st) price future_prices
                    (last_discharge_price st) with
            | Some target =>
                (assign (set_discharge_target (Some target)) ;;
                 log_state_of_charge ;;
                 assign (fun st =>
                   let st := set_current_operation_price (Some price) st in
                   let st := set_last_discharge_price price st in
                   set_last_charge_price PosInf st) ;;
                 on_storage (start_discharging price i) ;;
                 next_idx) st
            | None => next_idx st
            end
        end
      else next_idx st
  end.

Definition loop_body : M unit :=
  record_history ;;
  (fun st =>
     if is_processing (storage st) then (continue_operation ;; next_idx) st
     else decide_trade st).

(** [while idx < T: ...], with an explicit bound on the number of
    iterations. *)
Fixpoint while_loop (fuel : nat) (st : Locals) : option (result unit * Locals) :=
  if (idx st <? length price_array)%nat then
    match fuel with
    | O => None
    | S fuel' =>
        match loop_body st with
        | (Returns _, st') => while_loop fuel' st'
        | (Raises e, st') => Some (Raises e, st')
        end
    end
  else Some (Returns tt, st).
End Loop.

(** The locals on entry to the loop. *)
Definition initial_locals (storage : EnergyStorage) : Locals :=
  {| idx := 0;
     energy_history := [];
     charge_target := None;
     discharge_target := None;
     current_operation_price := None;
     last_discharge_price := 0;
     last_charge_price := PosInf;
     current_price := None;
     storage := storage |}.

(** The whole loop of [threshold_lookahead]: the locals when the loop is left,
    normally or by an exception.  [prices_df] is represented by its ["price"]
    column; the ["datetime"] column is read for log messages only. *)
Definition simulate (price_array : list Q) (storage : EnergyStorage)
    (window_size : option Z) : option (result unit * Locals) :=
  let window_size :=
    match window_size with None => ROLLING_WINDOW_SIZE | Some w => w end in
  while_loop price_array window_size (length price_array) (initial_locals storage).

(** [threshold_lookahead(prices_df, storage, window_size)]:
    the pair [(storage, energy_history)] it returns. *)
Definition threshold_lookahead (price_array : list Q) (storage0 : EnergyStorage)
    (window_size : option Z)
  : option (result (EnergyStorage * list HistoryEntry.t)) :=
  match simulate price_array storage0 window_size with
  | Some (Returns _, st) => Some (Returns (storage st, energy_history st))
  | Some (Raises e, _) => Some (Raises e)
  | None => None
  end.

(** The first [n] iterations of the loop: the locals at the top of iteration
    [n], when no earlier iteration raised and the loop ran that long. *)
Fixpoint after (price_array : list Q) (window_size : Z) (n : nat) (st : Locals)
  : option Locals :=
  match n with
  | O => Some st
  | S n' =>
      if (idx st <? length price_array)%nat then
        match loop_body price_array window_size st with
        | (Returns _, st') => after price_array window_size n' st'
        | (Raises _, _) => None
        end
      else None
  end.

(** ** Predicates on storage objects *)

(** The physical bound on the stored energy. *)
Definition level_ok (s : EnergyStorage) : Prop :=
  0 <= energy_level s /\ energy_level s <= capacity s.

(** At most one of the two mode flags is set. *)
Definition mode_ok (s : EnergyStorage) : Prop :=
  is_charging s && is_discharging s = false.


(** The history entry [e] records the level and mode of a storage in state
    [s]. *)
Definition snapshot_of (s : EnergyStorage) (e : HistoryEntry.t) : Prop :=
  HistoryEntry.energy_level e = energy_level s
  /\ HistoryEntry.action e =
     (if is_charging s then 1 else if is_discharging s then -1 else 0)%Z.

(** ** Sample inputs *)

(** The storage of [config.py]: 1 MWh, 0.5 C, efficiency 0.85, no fee. *)
Definition config_storage : EnergyStorage := __init__ 1 0.5 0.85 0.

(** Scenario A: ten quarter-hours at a flat 50 EUR/MWh. *)
Definition flat_prices : list Q := repeat 50 10.

(** The history of a storage that stays idle and empty for [n] indices. *)
Definition idle_history (n : nat) : list HistoryEntry.t :=
  map (fun i => {| HistoryEntry.time_index := i;
                   HistoryEntry.energy_level := 0;
                   HistoryEntry.action := 0%Z |}) (seq 0 n).

(** A charge followed by a discharge, on a storage of 4 MWh at 0.5 C (0.5 MWh
    per quarter-hour): a low first price, then a price spike at index 8
    followed by low prices.  The charge runs from index 0 and is stopped at
    index 7 (level 3.5, target 3.2); the discharge starts at index 8 and is
    stopped at index 14 (level 0.5, target 0.7). *)
Definition round_trip_storage : EnergyStorage := __init__ 4 0.5 0.85 0.

Definition round_trip_prices : list Q :=
  [5; 50; 50; 50; 50; 50; 50; 50; 100; 10; 10; 10; 10; 10; 10].

(** While a discharge with a target is in progress, the variable
    [current_price] and [last_discharge_price] both hold the price at the
    index [j] where that discharge was started. *)
Definition discharge_tracked (price_array : list Q) (st : Locals) : Prop :=
  is_discharging (storage st) = true ->
  discharge_target st <> None ->
  exists j,
    (j < idx st)%nat
    /\ charging_start_index (storage st) = Z.of_nat j
    /\ nth_error price_array j = Some (last_discharge_price st)
    /\ current_price st = Some (last_discharge_price st).

(** Scenario B: a very low first price followed by a flat 50. *)
Definition low_first_prices : list Q := [5; 50; 50; 50; 50; 50].

(** A storage whose C-rate is zero: it can transfer no energy. *)
Definition powerless_storage : EnergyStorage := __init__ 1 0 0.85 0.

(** ** Predicates on the locals of the strategy *)

(** The test of the processing branch that ends an operation: the storage is
    charging towards a target and is within 0.1 of it, or else is
    discharging towards a target and is within 0.1 of it.  When it fails the
    branch calls [continue_process]. *)
Definition target_reached (st : Locals) : bool :=
  let s := storage st in
  match (if is_charging s then charge_target st else None) with
  | Some target => Qle_bool (target - 0.1) (energy_level s)
  | None =>
      match (if is_discharging s then discharge_target st else None) with
      | Some target => Qle_bool (energy_level s) (target + 0.1)
      | None => false
      end
  end.

(** The slice [price_array[idx : idx + look_ahead_window]] at [idx]. *)
Definition future_prices_at (price_array : list Q) (window_size : Z) (i : nat)
  : list Q :=
  firstn (Z.to_nat (Z.min window_size (Z.of_nat (length price_array) - Z.of_nat i)))
    (skipn i price_array).

(** ** The trade summary: [create_trading_summary]

    The values of the key ["type"] of a trade, ["charge"] and
    ["discharge"]. *)
Inductive trade_type : Type :=
| charge_trade
| discharge_trade.

(** [current_trade] while the trade is still open. *)
Module OpenTrade.
Record t : Type := {
  type : trade_type;
  start_index : nat;
  start_energy : Q;
  intervals : nat
}.
End OpenTrade.

(** A trade as appended to [trades], with its three closing keys. *)
Module Trade.
Record t : Type := {
  type : trade_type;
  start_index : nat;
  start_energy : Q;
  intervals : nat;
  end_index : Z;
  end_energy : Q;
  energy_traded : Q
}.
End Trade.

(** The assignments that close [current_trade]. *)
Definition close_trade (tr : OpenTrade.t) (end_index : Z) (end_energy : Q)
  : Trade.t :=
  {| Trade.type := OpenTrade.type tr;
     Trade.start_index := OpenTrade.start_index tr;
     Trade.start_energy := OpenTrade.start_energy tr;
     Trade.intervals := OpenTrade.intervals tr;
     Trade.end_index := end_index;
     Trade.end_energy := end_energy;
     Trade.energy_traded := Qabs (end_energy - OpenTrade.start_energy tr) |}.

(** [l[-1]]. *)
Definition py_last {A : Type} (l : list A) : result A :=
  match rev l with
  | [] => Raises IndexError
  | x :: _ => Returns x
  end.

Section Summary.
Variable energy_history : list HistoryEntry.t.

(** The body of [for i, state in enumerate(energy_history):] on the pair
    [(trades, current_trade)]. *)
Definition summary_step (i : nat) (state : HistoryEntry.t)
    (acc : list Trade.t * option OpenTrade.t)
  : result (list Trade.t * option OpenTrade.t) :=
  let (trades, current_trade) := acc in
  match current_trade with
  | None =>
      if negb (HistoryEntry.action state =? 0)%Z then
        Returns
          (trades,
           Some {| OpenTrade.type :=
                     if (HistoryEntry.action state =? 1)%Z then charge_trade
                     else discharge_trade;
                   OpenTrade.start_index := HistoryEntry.time_index state;
                   OpenTrade.start_energy := HistoryEntry.energy_level state;
                   OpenTrade.intervals := 1 |})
      else Returns (trades, None)
  | Some tr =>
      if (HistoryEntry.action state =? 0)%Z then
        match (if (0 <? i)%nat then nth_error energy_history (i - 1)
               else Some state) with
        | None => Raises IndexError
        | Some previous =>
            let end_index := (Z.of_nat (HistoryEntry.time_index state) - 1)%Z in
            let end_energy := HistoryEntry.energy_level previous in
            Returns (trades ++ [close_trade tr end_index end_energy], None)
        end
      else
        Returns
          (trades,
           Some {| OpenTrade.type := OpenTrade.type tr;
                   OpenTrade.start_index := OpenTrade.start_index tr;
                   OpenTrade.start_energy := OpenTrade.start_energy tr;
                   OpenTrade.intervals := S (OpenTrade.intervals tr) |})
  end.

Fixpoint summary_loop (i : nat) (rest : list HistoryEntry.t)
    (acc : list Trade.t * option OpenTrade.t)
  : result (list Trade.t * option OpenTrade.t) :=
  match rest with
  | [] => Returns acc
  | state :: rest' =>
      match summary_step i state acc with
      | Returns acc' => summary_loop (S i) rest' acc'
      | Raises e => Raises e
      end
  end.
End Summary.

Definition create_trading_summary (energy_history : list HistoryEntry.t)
  : result (list Trade.t) :=
  match summary_loop energy_history 0 energy_history ([], None) with
  | Raises e => Raises e
  | Returns (trades, None) => Returns trades
  | Returns (trades, Some tr) =>
      match py_last energy_history with
      | Raises e => Raises e
      | Returns final =>
          Returns
            (trades ++
             [close_trade tr (Z.of_nat (HistoryEntry.time_index final))
                (HistoryEntry.energy_level final)])
      end
  end.

(** The number of entries of a history with a non-zero action. *)
Definition active (e : HistoryEntry.t) : bool :=
  negb (HistoryEntry.action e =? 0)%Z.

Definition total_intervals (trades : list Trade.t) : nat :=
  fold_right (fun tr n => (Trade.intervals tr + n)%nat) 0%nat trades.

(** The interval count of the trade that is open, if any. *)
Definition open_intervals (current_trade : option OpenTrade.t) : nat :=
  match current_trade with
  | Some tr => OpenTrade.intervals tr
  | None => 0%nat
  end.

(** The entry is idle ([action == 0]). *)
Definition is_idle_entry (e : HistoryEntry.t) : Prop := active e = false.

(** The entry is part of a charge or discharge ([action != 0]). *)
Definition is_active_entry (e : HistoryEntry.t) : Prop := active e = true.

(** ** Further predicates on storage objects *)

(** Stored energy is what was charged minus what was withdrawn. *)
Definition energy_balanced (s : EnergyStorage) : Prop :=
  energy_level s == total_charged_energy s - total_gross_energy s.

(** The efficiency split of everything withdrawn so far. *)
Definition losses_consistent (s : EnergyStorage) : Prop :=
  total_discharged_energy s == total_gross_energy s * efficiency s
  /\ energy_losses s == total_gross_energy s * (1 - efficiency s)
  /\ efficiency_losses s == gross_energy_revenue s * (1 - efficiency s).

(** The lifetime energy accumulators are not negative. *)
Definition totals_nonneg (s : EnergyStorage) : Prop :=
  0 <= total_charged_energy s /\ 0 <= total_gross_energy s.

(** A whole operation as the strategy drives it: the start at the first
    index, then one [continue_process] per further index. *)
Definition charging_operation (price : Q) (first : Z) (others : list Z)
  : list call :=
  StartCharging price first :: map ContinueProcess others.

Definition discharging_operation (price : Q) (first : Z) (others : list Z)
  : list call :=
  StartDischarging price first :: map ContinueProcess others.

(** The number of steps of an operation, as a rational. *)
Definition steps (others : list Z) : Q :=
  inject_Z (Z.of_nat (S (length others))).

(** A charge in progress or finished: the state between the steps of a
    charging operation at price [p], started from level [e0] and cash
    [c0]. *)
Definition charging_state (p e0 c0 : Q) (s0 s : EnergyStorage) : Prop :=
  capacity s = capacity s0 /\ max_power s = max_power s0
  /\ fee_per_mwh s = fee_per_mwh s0 /\ charging_price s = p
  /\ is_discharging s = false
  /\ (is_charging s = true \/ energy_level s == capacity s)
  /\ energy_level s <= capacity s
  /\ cash s == c0 - (energy_level s - e0) * (p + fee_per_mwh s0).

(** The same for a discharging operation; [n0] is the cycle count at its
    start. *)
Definition discharging_state (p e0 c0 n0 : Q) (s0 s : EnergyStorage) : Prop :=
  capacity s = capacity s0 /\ max_power s = max_power s0
  /\ fee_per_mwh s = fee_per_mwh s0 /\ efficiency s = efficiency s0
  /\ discharging_price s = p
  /\ is_charging s = false
  /\ (is_discharging s = true \/ energy_level s == 0)
  /\ 0 <= energy_level s
  /\ cash s == c0 + (e0 - energy_level s) * efficiency s0 * (p - fee_per_mwh s0)
  /\ total_cycles s == n0 + (e0 - energy_level s) / capacity s0.

(** ** Further inputs and predicates for the strategy *)

(** The history of a run in which the storage [s] is never touched. *)
Definition untouched_history (s : EnergyStorage) (n : nat)
  : list HistoryEntry.t :=
  map (fun i => {| HistoryEntry.time_index := i;
                   HistoryEntry.energy_level := energy_level s;
                   HistoryEntry.action := 0%Z |}) (seq 0 n).

(** A storage object in a state no run produces: capacity 0 with one MWh
    stored. *)
Definition zero_capacity_storage : EnergyStorage :=
  set_energy_level 1 (__init__ 0 1 0.85 0).

(** A price spike followed by low prices. *)
Definition spike_prices : list Q := [100; 10; 10; 10; 10; 10].

(** * Properties *)

#[local] Arguments Qplus : simpl never.
#[local] Arguments Qminus : simpl never.
#[local] Arguments Qmult : simpl never.
#[local] Arguments Qdiv : simpl never.
#[local] Arguments Qopp : simpl never.
#[local] Arguments Qle_bool : simpl never.
#[local] Arguments Qeq_bool : simpl never.
#[local] Arguments Qlt_bool : simpl never.
#[local] Arguments py_min : simpl never.
#[local] Arguments py_max : simpl never.

(** ** Comparisons and [min] *)

Lemma Qlt_bool_true (a b : Q) : Qlt_bool a b = true <-> a < b.
Proof.
  unfold Qlt_bool. rewrite negb_true_iff. split; intro H.
  - apply Qnot_le_lt. intro Hle. apply Qle_bool_iff in Hle. congruence.
  - destruct (Qle_bool b a) eqn:E; [|reflexivity].
    apply Qle_bool_iff in E. lra.
Qed.

Lemma Qlt_bool_false (a b : Q) : Qlt_bool a b = false <-> b <= a.
Proof.
  unfold Qlt_bool. rewrite negb_false_iff. apply Qle_bool_iff.
Qed.

Lemma Qle_bool_false (a b : Q) : Qle_bool a b = false <-> b < a.
Proof.
  split; intro H.
  - apply Qnot_le_lt. intro Hle. apply Qle_bool_iff in Hle. congruence.
  - destruct (Qle_bool a b) eqn:E; [|reflexivity].
    apply Qle_bool_iff in E. lra.
Qed.

Lemma Qeq_bool_false (a b : Q) : Qeq_bool a b = false <-> ~ a == b.
Proof.
  split; intro H.
  - intro Heq. apply Qeq_bool_iff in Heq. congruence.
  - destruct (Qeq_bool a b) eqn:E; [|reflexivity].
    apply Qeq_bool_iff in E. contradiction.
Qed.

(** Turns the boolean tests met in hypotheses into the orders they decide. *)
Ltac qprop :=
  repeat match goal with
    | H : Qle_bool _ _ = true |- _ => apply Qle_bool_iff in H
    | H : Qle_bool _ _ = false |- _ => apply Qle_bool_false in H
    | H : Qlt_bool _ _ = true |- _ => apply Qlt_bool_true in H
    | H : Qlt_bool _ _ = false |- _ => apply Qlt_bool_false in H
    | H : Qeq_bool _ _ = true |- _ => apply Qeq_bool_iff in H
    | H : Qeq_bool _ _ = false |- _ => apply Qeq_bool_false in H
    end.

Lemma py_min_le_l (a b : Q) : py_min a b <= a.
Proof. unfold py_min. destruct (Qlt_bool b a) eqn:E; qprop; lra. Qed.

Lemma py_min_le_r (a b : Q) : py_min a b <= b.
Proof. unfold py_min. destruct (Qlt_bool b a) eqn:E; qprop; lra. Qed.

(** Replaces every [py_min a b] of the goal by a fresh number below [a] and
    [b]. *)
Ltac abstract_min :=
  repeat match goal with
    | |- context [py_min ?a ?b] =>
        let m := fresh "amount" in
        let Hm := fresh "Hm" in
        pose proof (py_min_le_l a b); pose proof (py_min_le_r a b);
        remember (py_min a b) as m eqn:Hm; clear Hm
    end.

Ltac unfold_methods :=
  unfold exec, invoke, start_charging, start_discharging, continue_process,
    _charge_step, _discharge_step, reset_daily_transactions, py_div in *.

Ltac split_ifs :=
  repeat match goal with
    | |- context [if ?b then _ else _] => destruct b eqn:?
    end.

(** ** One call on a storage *)

Lemma exec_capacity (c : call) (s : EnergyStorage) :
  capacity (exec c s) = capacity s.
Proof.
  destruct c; unfold_methods; cbn; split_ifs; reflexivity.
Qed.

Lemma exec_level_ok (c : call) (s : EnergyStorage) :
  level_ok s -> level_ok (exec c s).
Proof.
  unfold level_ok.
  destruct c; unfold_methods; cbn; split_ifs; cbn; intros [H0 H1];
    qprop; abstract_min; split; lra.
Qed.

Lemma invoke_returns (c : call) (s : EnergyStorage) :
  ~ capacity s == 0 -> exists b, fst (invoke c s) = Returns b.
Proof.
  intro Hcap.
  destruct c; unfold_methods; cbn; split_ifs; cbn; qprop;
    try contradiction; eauto.
Qed.

Lemma exec_mode_ok (c : call) (s : EnergyStorage) :
  mode_ok s -> mode_ok (exec c s).
Proof.
  unfold mode_ok.
  destruct s as [? ? ? ? ? ? ? ? ch dis ? ? ? ? ? ? ? ? ? ? ? ? ? ? ?].
  destruct ch, dis, c; unfold_methods; cbn; split_ifs; cbn;
    intros; try reflexivity; try discriminate.
Qed.



Lemma discharged_cycles_app (cap : Q) (l1 l2 : list Transaction) :
  discharged_cycles cap (l1 ++ l2) ==
  discharged_cycles cap l1 + discharged_cycles cap l2.
Proof.
  induction l1 as [|[tx|tx] l1 IH]; cbn [app discharged_cycles].
  - lra.
  - exact IH.
  - rewrite IH. lra.
Qed.

(** The log and the daily counter move together under every call. *)
Lemma exec_daily_cycles (c : call) (s : EnergyStorage) :
  ~ capacity s == 0 ->
  discharged_cycles (capacity s) (transactions s) == daily_cycles s ->
  discharged_cycles (capacity (exec c s)) (transactions (exec c s))
  == daily_cycles (exec c s).
Proof.
  intros Hcap H.
  destruct c; unfold_methods; cbn; split_ifs; cbn;
    rewrite ?discharged_cycles_app; cbn [discharged_cycles];
    cbn; qprop; try contradiction; lra.
Qed.

(** The lifetime counter follows the daily one until a reset. *)
Lemma exec_cycles_gap (c : call) (s : EnergyStorage) :
  is_reset c = false ->
  total_cycles (exec c s) - daily_cycles (exec c s)
  == total_cycles s - daily_cycles s.
Proof.
  intro H.
  destruct c; try discriminate; unfold_methods; cbn; split_ifs; cbn; lra.
Qed.

(** ** Sequences of calls *)

Lemma run_calls_invariant (P : EnergyStorage -> Prop) (allowed : call -> bool) :
  (forall c s, allowed c = true -> P s -> P (exec c s)) ->
  forall cs s, forallb allowed cs = true -> P s -> P (run_calls cs s).
Proof.
  intros Hstep cs. induction cs as [|c cs IH]; intros s Hall Hs.
  - exact Hs.
  - cbn in Hall. apply andb_prop in Hall as [Hc Hcs].
    cbn. apply IH; auto.
Qed.

Lemma run_calls_always (P : EnergyStorage -> Prop) :
  (forall c s, P s -> P (exec c s)) ->
  forall cs s, P s -> P (run_calls cs s).
Proof.
  intros Hstep cs. induction cs as [|c cs IH]; intros s Hs.
  - exact Hs.
  - cbn. apply IH; auto.
Qed.

Lemma run_calls_capacity (cs : list call) (s : EnergyStorage) :
  capacity (run_calls cs s) = capacity s.
Proof.
  apply (run_calls_always (fun s' => capacity s' = capacity s)); [|reflexivity].
  intros c s' H. rewrite exec_capacity. exact H.
Qed.

(** ** One iteration of the strategy loop *)

Ltac unfold_engine :=
  unfold loop_body, decide_trade, continue_operation, record_history,
    log_state_of_charge, next_idx, on_storage, assign, bind, ret in *.

Ltac split_call :=
  match goal with
  | |- context [continue_process ?i ?s] =>
      destruct (continue_process i s) as [[?b|?e] ?s'] eqn:Hcall
  | |- context [start_charging ?p ?i ?s] =>
      destruct (start_charging p i s) as [[?b|?e] ?s'] eqn:Hcall
  | |- context [start_discharging ?p ?i ?s] =>
      destruct (start_discharging p i s) as [[?b|?e] ?s'] eqn:Hcall
  end; cbn.

(** Case analysis following the branches of the loop body on the locals
    [st]: target reached, operation continued, trade started, hold. *)
Ltac body_cases st :=
  unfold_engine; cbn;
  destruct (is_processing (storage st)) eqn:Hproc;
  [ destruct (if is_charging (storage st) then charge_target st else None)
      as [?target|] eqn:Hcharge;
    [ destruct (Qle_bool _ _) eqn:Hreached; cbn; [ | split_call ]
    | destruct (if is_discharging (storage st) then discharge_target st
                else None) as [?target|] eqn:Hdischarge;
      [ destruct (Qle_bool _ _) eqn:Hreached; cbn; [ | split_call ]
      | split_call ] ]
  | destruct (nth_error _ (idx st)) as [?price|] eqn:Hprice; cbn;
    [ destruct (1 <=? _)%Z eqn:Hwindow; cbn;
      [ destruct (charge_decision _ _ _ _) as [?target|] eqn:Hbuy; cbn;
        [ destruct (Qeq_bool (capacity _) 0) eqn:Hcap0; cbn; [ | split_call ]
        | destruct (discharge_decision _ _ _ _) as [?target|] eqn:Hsell; cbn;
          [ destruct (Qeq_bool (capacity _) 0) eqn:Hcap0; cbn; [ | split_call ]
          | ] ]
      | ]
    | ] ].

Section LoopFacts.
Variable price_array : list Q.
Variable window_size : Z.

(** What an iteration does to the storage is a sequence of at most one
    call, never a reset. *)
Lemma loop_body_calls (st : Locals) :
  exists cs, forallb no_reset cs = true
             /\ storage (snd (loop_body price_array window_size st))
                = run_calls cs (storage st).
Proof.
  body_cases st;
    match goal with
    | H : continue_process ?i _ = _ |- _ => exists [ContinueProcess i]
    | H : start_charging ?p ?i _ = _ |- _ => exists [StartCharging p i]
    | H : start_discharging ?p ?i _ = _ |- _ => exists [StartDischarging p i]
    | H : (if is_charging _ then _ else _) = Some _ |- _ =>
        exists [ClearIsCharging]
    | H : (if is_discharging _ then _ else _) = Some _ |- _ =>
        exists [ClearIsDischarging]
    | _ => exists []
    end;
    (split; [reflexivity|]); cbn; unfold exec; cbn; rewrite ?Hcall;
    reflexivity.
Qed.

(** Every iteration appends one entry: the index, and the level and mode
    of the storage as the iteration finds them. *)
Lemma loop_body_history (st : Locals) :
  energy_history (snd (loop_body price_array window_size st)) =
  energy_history st ++
    [{| HistoryEntry.time_index := idx st;
        HistoryEntry.energy_level := energy_level (storage st);
        HistoryEntry.action :=
          if is_charging (storage st) then 1%Z
          else if is_discharging (storage st) then (-1)%Z else 0%Z |}].
Proof.
  body_cases st; reflexivity.
Qed.

(** An iteration that completes has advanced [idx] by one. *)
Lemma loop_body_idx (st st' : Locals) (u : unit) :
  loop_body price_array window_size st = (Returns u, st') ->
  idx st' = S (idx st).
Proof.
  body_cases st; intro H; inversion H; subst; reflexivity.
Qed.

(** An iteration raises only through the division by a zero capacity. *)
Lemma loop_body_returns (st : Locals) :
  (idx st < length price_array)%nat ->
  ~ capacity (storage st) == 0 ->
  fst (loop_body price_array window_size st) = Returns tt.
Proof.
  intros Hidx Hcap.
  assert (Hcall' : forall c, exists b, fst (invoke c (storage st)) = Returns b)
    by (intro c; apply invoke_returns; exact Hcap).
  apply nth_error_Some in Hidx. revert Hidx.
  body_cases st; intro Hidx; try reflexivity; try congruence;
    try (qprop; contradiction);
    match goal with
    | H : continue_process ?i _ = _ |- _ =>
        destruct (Hcall' (ContinueProcess i)) as [b' Hb]
    | H : start_charging ?p ?i _ = _ |- _ =>
        destruct (Hcall' (StartCharging p i)) as [b' Hb]
    | H : start_discharging ?p ?i _ = _ |- _ =>
        destruct (Hcall' (StartDischarging p i)) as [b' Hb]
    end;
    cbn in Hb; rewrite Hcall in Hb; discriminate.
Qed.

(** ** The whole loop *)

(** The loop always terminates within [T - idx] iterations. *)
Lemma while_loop_terminates (fuel : nat) (st : Locals) :
  (length price_array - idx st <= fuel)%nat ->
  exists r st', while_loop price_array window_size fuel st = Some (r, st').
Proof.
  revert st. induction fuel as [|fuel IH]; intros st Hfuel; cbn [while_loop].
  - destruct (idx st <? length price_array)%nat eqn:E; [|eauto].
    apply Nat.ltb_lt in E. lia.
  - destruct (idx st <? length price_array)%nat eqn:E; [|eauto].
    destruct (loop_body price_array window_size st) as [[u|e] st'] eqn:Hbody;
      [|eauto].
    apply IH. apply loop_body_idx in Hbody. lia.
Qed.

(** A property of the locals kept by every iteration holds when the loop
    is left. *)
Lemma while_loop_invariant (I : Locals -> Prop) :
  (forall st, I st -> (idx st < length price_array)%nat ->
              I (snd (loop_body price_array window_size st))) ->
  forall fuel st r st',
    I st -> while_loop price_array window_size fuel st = Some (r, st') ->
    I st'.
Proof.
  intros Hstep fuel. induction fuel as [|fuel IH]; intros st r st' Hst; cbn [while_loop].
  - destruct (idx st <? length price_array)%nat; [discriminate|].
    intro H. inversion H. subst. exact Hst.
  - destruct (idx st <? length price_array)%nat eqn:E.
    + apply Nat.ltb_lt in E. specialize (Hstep st Hst E).
      destruct (loop_body price_array window_size st) as [[u|e] st1].
      * apply IH. exact Hstep.
      * intro H. inversion H. subst. exact Hstep.
    + intro H. inversion H. subst. exact Hst.
Qed.

(** When no iteration can raise, the loop returns. *)
Lemma while_loop_returns (I : Locals -> Prop) :
  (forall st, I st -> (idx st < length price_array)%nat ->
              I (snd (loop_body price_array window_size st))) ->
  (forall st, I st -> (idx st < length price_array)%nat ->
              fst (loop_body price_array window_size st) = Returns tt) ->
  forall fuel st r st',
    I st -> while_loop price_array window_size fuel st = Some (r, st') ->
    r = Returns tt.
Proof.
  intros Hstep Hret fuel. induction fuel as [|fuel IH]; intros st r st' Hst; cbn [while_loop].
  - destruct (idx st <? length price_array)%nat; [discriminate|].
    intro H. inversion H. reflexivity.
  - destruct (idx st <? length price_array)%nat eqn:E.
    + apply Nat.ltb_lt in E.
      specialize (Hstep st Hst E). specialize (Hret st Hst E).
      destruct (loop_body price_array window_size st) as [[u|e] st1].
      * apply IH. exact Hstep.
      * discriminate.
    + intro H. inversion H. reflexivity.
Qed.

(** The same for a prefix of the iterations, none of which raised. *)
Lemma after_invariant (I : Locals -> Prop) :
  (forall st st' u,
      I st -> (idx st < length price_array)%nat ->
      loop_body price_array window_size st = (Returns u, st') -> I st') ->
  forall n st st',
    I st -> after price_array window_size n st = Some st' -> I st'.
Proof.
  intros Hstep n. induction n as [|n IH]; intros st st' Hst; cbn [after].
  - intro H. inversion H. subst. exact Hst.
  - destruct (idx st <? length price_array)%nat eqn:E; [|discriminate].
    apply Nat.ltb_lt in E.
    destruct (loop_body price_array window_size st) as [[u|e] st1] eqn:Hbody;
      [|discriminate].
    apply IH. exact (Hstep st st1 u Hst E Hbody).
Qed.

Lemma after_idx (n : nat) (st st' : Locals) :
  after price_array window_size n st = Some st' -> idx st' = (n + idx st)%nat.
Proof.
  revert st. induction n as [|n IH]; intros st; cbn [after].
  - intro H. inversion H. reflexivity.
  - destruct (idx st <? length price_array)%nat; [|discriminate].
    destruct (loop_body price_array window_size st) as [[u|e] st1] eqn:Hbody;
      [|discriminate].
    intro H. apply IH in H. apply loop_body_idx in Hbody. lia.
Qed.
End LoopFacts.

(** ** Runs of [threshold_lookahead] *)

Lemma simulate_terminates (price_array : list Q) (s0 : EnergyStorage)
    (window_size : option Z) :
  exists r st, simulate price_array s0 window_size = Some (r, st).
Proof.
  unfold simulate. apply while_loop_terminates. cbn. lia.
Qed.

(** A property of storages kept by every call other than a reset holds of the
    storage throughout a run, hence of the final storage and of the state
    behind every history entry. *)
Lemma simulate_storage_invariant (P : EnergyStorage -> Prop)
    (price_array : list Q) (s0 : EnergyStorage) (window_size : option Z)
    (r : result unit) (st : Locals) :
  (forall c s, no_reset c = true -> P s -> P (exec c s)) ->
  P s0 ->
  simulate price_array s0 window_size = Some (r, st) ->
  P (storage st)
  /\ Forall (fun e => exists s, P s /\ snapshot_of s e) (energy_history st).
Proof.
  intros Hstep H0. unfold simulate.
  apply (while_loop_invariant _ _
           (fun st => P (storage st)
                      /\ Forall (fun e => exists s, P s /\ snapshot_of s e)
                           (energy_history st))).
  - intros st1 [Hs Hh] _. split.
    + destruct (loop_body_calls price_array
                  match window_size with
                  | Some w => w
                  | None => ROLLING_WINDOW_SIZE
                  end st1) as [cs [Hcs ->]].
      apply (run_calls_invariant P no_reset); assumption.
    + rewrite loop_body_history. apply Forall_app. split; [exact Hh|].
      constructor; [|constructor].
      exists (storage st1). split; [exact Hs|]. split; reflexivity.
  - split; [exact H0|constructor].
Qed.

(** With a non-zero capacity no call raises, and the run returns. *)
Lemma simulate_returns (price_array : list Q) (s0 : EnergyStorage)
    (window_size : option Z) (r : result unit) (st : Locals) :
  ~ capacity s0 == 0 ->
  simulate price_array s0 window_size = Some (r, st) ->
  r = Returns tt.
Proof.
  intro Hcap. unfold simulate.
  apply (while_loop_returns _ _ (fun st => capacity (storage st) = capacity s0)).
  - intros st1 Hs _.
    destruct (loop_body_calls price_array
                match window_size with
                | Some w => w
                | None => ROLLING_WINDOW_SIZE
                end st1) as [cs [_ ->]].
    rewrite run_calls_capacity. exact Hs.
  - intros st1 Hs Hidx. apply loop_body_returns; [exact Hidx|].
    rewrite Hs. exact Hcap.
  - reflexivity.
Qed.

(** * The claims *)

(** ** C1: the energy level stays between 0 and the capacity *)

(** C1.  A storage created with a positive capacity starts empty; after any
    sequence of calls ([start_charging], [start_discharging],
    [continue_process], [reset_daily_transactions] and the two flag writes of
    the strategy) its energy level lies between 0 and the capacity, and every
    call returns.  A run of [threshold_lookahead] on such a storage returns,
    and the bound holds of the final storage and of every recorded history
    entry. *)
Theorem energy_level_within_capacity
    (capacity_mwh rate eff fee : Q) (Hcap : 0 < capacity_mwh) :
  let s0 := __init__ capacity_mwh rate eff fee in
  (forall cs,
      0 <= energy_level (run_calls cs s0)
      /\ energy_level (run_calls cs s0) <= capacity (run_calls cs s0)
      /\ capacity (run_calls cs s0) = capacity_mwh)
  /\ (forall cs c, exists b, fst (invoke c (run_calls cs s0)) = Returns b)
  /\ (forall price_array window_size,
         exists st,
           simulate price_array s0 window_size = Some (Returns tt, st)
           /\ 0 <= energy_level (storage st)
           /\ energy_level (storage st) <= capacity (storage st)
           /\ Forall (fun e => 0 <= HistoryEntry.energy_level e
                               /\ HistoryEntry.energy_level e <= capacity_mwh)
                (energy_history st)).
Proof.
  intro s0.
  assert (H0 : level_ok s0) by (unfold level_ok, s0; cbn; lra).
  assert (Hnz : ~ capacity s0 == 0) by (unfold s0; cbn; lra).
  assert (Hcs : forall cs, level_ok (run_calls cs s0)).
  { intro cs. apply run_calls_always; [apply exec_level_ok | exact H0]. }
  split; [|split].
  - intro cs. destruct (Hcs cs) as [Hlo Hhi].
    split; [exact Hlo|]. split; [exact Hhi|]. apply run_calls_capacity.
  - intros cs c. apply invoke_returns. rewrite run_calls_capacity. exact Hnz.
  - intros price_array window_size.
    destruct (simulate_terminates price_array s0 window_size) as [r [st Hrun]].
    assert (r = Returns tt) as ->.
    { apply (simulate_returns _ _ _ _ _ Hnz Hrun). }
    exists st. split; [exact Hrun|].
    destruct (simulate_storage_invariant
                (fun s => level_ok s /\ capacity s = capacity_mwh)
                _ _ _ _ _
                ltac:(intros c s _ [? ?]; split;
                      [apply exec_level_ok; assumption
                      |rewrite exec_capacity; assumption])
                (conj H0 eq_refl) Hrun) as [[[Hlo Hhi] _] Hhist].
    split; [exact Hlo|]. split; [exact Hhi|].
    eapply Forall_impl; [|exact Hhist].
    intros e [s [[[Hl Hh] Hc] [He _]]]. rewrite He, <- Hc. auto.
Qed.

Lemma energy_level_within_capacity_witness :
  0 <= energy_level
         (run_calls [StartCharging 5 0; ContinueProcess 1;
                     ResetDailyTransactions; StartDischarging 50 2]
            config_storage)
  <= 1.
Proof.
  destruct (energy_level_within_capacity 1 0.5 0.85 0) as [H _].
  - reflexivity.
  - destruct (H [StartCharging 5 0; ContinueProcess 1;
                 ResetDailyTransactions; StartDischarging 50 2])
      as [Hlo [Hhi Hc]].
    split; [exact Hlo|].
    unfold config_storage. rewrite Hc in Hhi. exact Hhi.
Defined.

(** ** C2: the two modes exclude each other, and refused starts change nothing *)

(** C2.  In every state reached from a new storage the flags [is_charging]
    and [is_discharging] are not both set, and a run of [threshold_lookahead]
    keeps it so.  [start_charging] and [start_discharging] return [False] and
    leave the object as it is when one of the flags is set; so do
    [start_charging] on a full storage and [start_discharging] on an empty
    one. *)
Theorem modes_exclusive_and_refused_starts :
  (forall capacity_mwh rate eff fee cs,
      let s := run_calls cs (__init__ capacity_mwh rate eff fee) in
      is_charging s && is_discharging s = false)
  /\ (forall price_array s0 window_size,
         is_charging s0 && is_discharging s0 = false ->
         exists r st,
           simulate price_array s0 window_size = Some (r, st)
           /\ is_charging (storage st) && is_discharging (storage st) = false)
  /\ (forall s price time_index,
         is_charging s = true \/ is_discharging s = true ->
         start_charging price time_index s = (Returns false, s)
         /\ start_discharging price time_index s = (Returns false, s))
  /\ (forall s price time_index,
         capacity s <= energy_level s ->
         start_charging price time_index s = (Returns false, s))
  /\ (forall s price time_index,
         energy_level s <= 0 ->
         start_discharging price time_index s = (Returns false, s)).
Proof.
  repeat split.
  - intros. subst s.
    apply (run_calls_always mode_ok); [apply exec_mode_ok | reflexivity].
  - intros price_array s0 window_size H0.
    destruct (simulate_terminates price_array s0 window_size) as [r [st Hrun]].
    exists r, st. split; [exact Hrun|].
    apply (simulate_storage_invariant mode_ok _ _ _ _ _
             ltac:(intros c s _; apply exec_mode_ok) H0 Hrun).
  - unfold start_charging.
    destruct H as [-> | ->]; [|rewrite orb_true_r]; reflexivity.
  - unfold start_discharging.
    destruct H as [-> | ->]; [|rewrite orb_true_r]; reflexivity.
  - intros s price time_index H. unfold start_charging.
    apply Qle_bool_iff in H. rewrite H.
    destruct (is_charging s || is_discharging s); reflexivity.
  - intros s price time_index H. unfold start_discharging.
    apply Qle_bool_iff in H. rewrite H.
    destruct (is_charging s || is_discharging s); reflexivity.
Qed.

Lemma modes_exclusive_and_refused_starts_witness :
  let charging := snd (start_charging 5 0 config_storage) in
  start_discharging 50 1 charging = (Returns false, charging)
  /\ start_discharging 50 0 config_storage = (Returns false, config_storage).
Proof.
  destruct modes_exclusive_and_refused_starts as [_ [_ [Hbusy [_ Hempty]]]].
  split.
  - apply Hbusy. left. reflexivity.
  - apply Hempty. cbn. lra.
Defined.

(** ** C3: the accounting of a discharge step *)

(** C3.  A discharge step whose amount [min(max_power * 0.25, energy_level)]
    is positive takes that amount out of the storage, sells
    [usable_energy = amount * efficiency] of it (strictly less than the amount
    when the efficiency is below 1), adds
    [usable_energy * price - usable_energy * fee_per_mwh] to the cash and logs
    a discharge transaction with these figures; unless the capacity is zero it
    returns [True] and adds [amount / capacity] to both cycle counters.  A
    charge step never changes a cycle counter. *)
Theorem discharge_step_accounting
    (s : EnergyStorage) (price : Q) (time_index : Z) :
  let amount := py_min (max_power s * 0.25) (energy_level s) in
  let usable_energy := amount * efficiency s in
  let revenue := usable_energy * price - usable_energy * fee_per_mwh s in
  let s' := snd (_discharge_step price time_index s) in
  0 < amount ->
  energy_level s' == energy_level s - amount
  /\ cash s' == cash s + revenue
  /\ (exists tx,
        transactions s' = transactions s ++ [discharge tx]
        /\ DischargeTx.amount_gross tx = amount
        /\ DischargeTx.amount_usable tx = usable_energy
        /\ DischargeTx.revenue tx = revenue)
  /\ (efficiency s < 1 -> usable_energy < amount)
  /\ (~ capacity s == 0 ->
      fst (_discharge_step price time_index s) = Returns true
      /\ daily_cycles s' == daily_cycles s + amount / capacity s
      /\ total_cycles s' == total_cycles s + amount / capacity s)
  /\ (forall price1 time_index1 s1,
        let s1' := snd (_charge_step price1 time_index1 s1) in
        daily_cycles s1' = daily_cycles s1
        /\ total_cycles s1' = total_cycles s1).
Proof.
  intros amount usable_energy revenue s' Hpos.
  assert (Hstep : Qle_bool amount 0 = false) by (apply Qle_bool_false; exact Hpos).
  subst s'. unfold _discharge_step, py_div. fold amount. rewrite Hstep.
  repeat split.
  - destruct (Qeq_bool _ _); cbn; reflexivity.
  - destruct (Qeq_bool _ _); cbn; reflexivity.
  - destruct (Qeq_bool _ _); cbn; eexists; repeat split; reflexivity.
  - intro Heff. subst usable_energy. nra.
  - cbn. destruct (Qeq_bool (capacity s) 0) eqn:E; qprop;
      [contradiction | reflexivity].
  - cbn. destruct (Qeq_bool (capacity s) 0) eqn:E; qprop;
      [contradiction | reflexivity].
  - cbn. destruct (Qeq_bool (capacity s) 0) eqn:E; qprop;
      [contradiction | reflexivity].
  - unfold _charge_step. split_ifs; reflexivity.
  - unfold _charge_step. split_ifs; reflexivity.
Qed.

Lemma discharge_step_accounting_witness :
  let s := snd (start_charging 5 0 config_storage) in
  energy_level (snd (_discharge_step 100 1 s)) == 0
  /\ cash (snd (_discharge_step 100 1 s)) == 10.
Proof.
  intro s.
  destruct (discharge_step_accounting s 100 1) as [He [Hc _]].
  - reflexivity.
  - split.
    + rewrite He. reflexivity.
    + rewrite Hc. reflexivity.
Defined.

(** ** C6: what a daily reset changes and what it keeps *)

(** C6.  [reset_daily_transactions] empties the transaction log, zeroes
    [daily_cycles] and clears both mode flags; [total_cycles], [cash],
    [energy_level] and every lifetime accumulator keep their values, as do the
    configuration and the remaining bookkeeping attributes. *)
Theorem reset_daily_transactions_effect (s : EnergyStorage) :
  let s' := reset_daily_transactions s in
  (transactions s' = []
   /\ daily_cycles s' = 0
   /\ is_charging s' = false
   /\ is_discharging s' = false
   /\ is_processing s' = false)
  /\ (total_cycles s' = total_cycles s
      /\ cash s' = cash s
      /\ energy_level s' = energy_level s
      /\ total_charged_energy s' = total_charged_energy s
      /\ total_discharged_energy s' = total_discharged_energy s
      /\ total_gross_energy s' = total_gross_energy s
      /\ total_charge_cost s' = total_charge_cost s
      /\ total_discharge_revenue s' = total_discharge_revenue s
      /\ gross_energy_revenue s' = gross_energy_revenue s
      /\ efficiency_losses s' = efficiency_losses s
      /\ energy_losses s' = energy_losses s)
  /\ (capacity s' = capacity s
      /\ charge_rate s' = charge_rate s
      /\ max_power s' = max_power s
      /\ efficiency s' = efficiency s
      /\ fee_per_mwh s' = fee_per_mwh s
      /\ charging_price s' = charging_price s
      /\ discharging_price s' = discharging_price s
      /\ charging_start_index s' = charging_start_index s
      /\ current_interval s' = current_interval s
      /\ operation_time_days s' = operation_time_days s).
Proof.
  cbn. repeat split.
Qed.

(** ** C9: cash is the profit of the accumulators *)


(** ** C10: [continue_process] on an idle storage *)

(** C10.  Called on a storage that is neither charging nor discharging,
    [continue_process] returns [False], yet the object is not left as it was:
    [current_interval] has been incremented (and nothing else changed). *)
Theorem continue_process_idle_counts (s : EnergyStorage) (time_index : Z) :
  is_charging s = false ->
  is_discharging s = false ->
  continue_process time_index s
  = (Returns false, set_current_interval (current_interval s + 1)%Z s)
  /\ current_interval (snd (continue_process time_index s))
     = (current_interval s + 1)%Z
  /\ snd (continue_process time_index s) <> s.
Proof.
  intros Hc Hd.
  assert (E : continue_process time_index s
              = (Returns false,
                 set_current_interval (current_interval s + 1)%Z s)).
  { unfold continue_process. cbn. rewrite Hc, Hd. reflexivity. }
  rewrite E. cbn. repeat split.
  intro H. apply (f_equal current_interval) in H. cbn in H. lia.
Qed.

Lemma continue_process_idle_counts_witness :
  fst (continue_process 0 config_storage) = Returns false
  /\ current_interval (snd (continue_process 0 config_storage)) = 1%Z.
Proof.
  destruct (continue_process_idle_counts config_storage 0) as [H [Hi _]].
  - reflexivity.
  - reflexivity.
  - split; [rewrite H; reflexivity | exact Hi].
Defined.

(** ** C5: the discharge transactions of the log and the cycle counters *)

(** C5, as stated, fails after a reset.  Charge once, reset (which also
    returns the storage to Idle), discharge once, reset: the log is empty, so
    the sum over its discharge transactions is 0, while [total_cycles] still
    counts the discharge (1/8 of a cycle). *)
Lemma cycle_sum_differs_from_total_after_reset :
  let s := run_calls [StartCharging 10 0; ResetDailyTransactions;
                      StartDischarging 20 1; ResetDailyTransactions]
             config_storage in
  transactions s = []
  /\ total_cycles s == 1 # 8
  /\ ~ discharged_cycles (capacity s) (transactions s) == total_cycles s.
Proof.
  vm_compute. repeat split; intro H; discriminate.
Qed.

(** C5, amended.  For a storage created with a positive capacity, after any
    sequence of calls the sum over the discharge transactions of the log of
    [amount_gross / capacity] equals [daily_cycles]; it equals [total_cycles]
    as long as [reset_daily_transactions] has not been called, in particular
    at the end of a run of [threshold_lookahead] on a new storage. *)
Theorem cycle_sum_matches_counters
    (capacity_mwh rate eff fee : Q) (Hcap : 0 < capacity_mwh) :
  let s0 := __init__ capacity_mwh rate eff fee in
  (forall cs,
      let s := run_calls cs s0 in
      discharged_cycles (capacity s) (transactions s) == daily_cycles s)
  /\ (forall cs,
         forallb no_reset cs = true ->
         let s := run_calls cs s0 in
         discharged_cycles (capacity s) (transactions s) == total_cycles s)
  /\ (forall price_array window_size,
         exists st,
           simulate price_array s0 window_size = Some (Returns tt, st)
           /\ discharged_cycles (capacity (storage st))
                (transactions (storage st))
              == total_cycles (storage st)).
Proof.
  intro s0.
  set (daily := fun s => ~ capacity s == 0
     /\ discharged_cycles (capacity s) (transactions s) == daily_cycles s).
  set (total := fun s => daily s /\ total_cycles s - daily_cycles s == 0).
  assert (Hdaily : forall c s, daily s -> daily (exec c s)).
  { intros c s [Hnz Hsum]. split.
    - rewrite exec_capacity. exact Hnz.
    - apply exec_daily_cycles; assumption. }
  assert (Htotal : forall c s, no_reset c = true -> total s -> total (exec c s)).
  { intros c s Hc [Hd Hgap]. split; [apply Hdaily; exact Hd|].
    rewrite exec_cycles_gap; [exact Hgap|].
    unfold no_reset in Hc. apply negb_true_iff in Hc. exact Hc. }
  assert (H0 : total s0).
  { unfold total, daily, s0. cbn. repeat split; lra. }
  split; [|split].
  - intros cs s.
    apply (run_calls_always daily Hdaily cs s0). apply H0.
  - intros cs Hcs s.
    destruct (run_calls_invariant total no_reset Htotal cs s0 Hcs H0)
      as [[_ Hsum] Hgap].
    fold s in Hsum, Hgap. lra.
  - intros price_array window_size.
    destruct (simulate_terminates price_array s0 window_size) as [r [st Hrun]].
    assert (r = Returns tt) as ->.
    { apply (simulate_returns _ _ _ _ _ (proj1 (proj1 H0)) Hrun). }
    exists st. split; [exact Hrun|].
    destruct (simulate_storage_invariant total _ _ _ _ _ Htotal H0 Hrun)
      as [[[_ Hsum] Hgap] _].
    lra.
Qed.

Lemma cycle_sum_matches_counters_witness :
  let s := run_calls [StartCharging 10 0; ClearIsCharging;
                      StartDischarging 20 1] config_storage in
  discharged_cycles (capacity s) (transactions s) == total_cycles s.
Proof.
  destruct (cycle_sum_matches_counters 1 0.5 0.85 0) as [_ [H _]].
  - reflexivity.
  - apply (H [StartCharging 10 0; ClearIsCharging; StartDischarging 20 1]).
    reflexivity.
Defined.

(** ** C8: scenario A, a flat price series *)

(** Only the part of the window that lies inside the series matters: the
    loop behaves the same for [window_size] and for its value clamped to
    [0 .. T]. *)
Lemma loop_body_clamp (price_array : list Q) (w : Z) (st : Locals) :
  loop_body price_array w st =
  loop_body price_array (Z.max 0 (Z.min w (Z.of_nat (length price_array)))) st.
Proof.
  unfold loop_body, bind, record_history, assign.
  destruct (is_processing _); [reflexivity|].
  unfold decide_trade.
  destruct (nth_error _ _); [|reflexivity].
  match goal with
  | |- (if (1 <=? ?a)%Z then _ else _) = (if (1 <=? ?b)%Z then _ else _) =>
      remember a as l1 eqn:E1; remember b as l2 eqn:E2
  end.
  cbn [idx set_current_price set_energy_history] in E1, E2.
  destruct (1 <=? l1)%Z eqn:G1.
  - apply Z.leb_le in G1. assert (l2 = l1) as -> by lia.
    rewrite (proj2 (Z.leb_le 1 l1) G1). reflexivity.
  - apply Z.leb_gt in G1.
    assert (G2 : (1 <=? l2)%Z = false) by (apply Z.leb_gt; lia).
    rewrite G2. reflexivity.
Qed.

Lemma while_loop_clamp (price_array : list Q) (w : Z) (fuel : nat) (st : Locals) :
  while_loop price_array w fuel st =
  while_loop price_array
    (Z.max 0 (Z.min w (Z.of_nat (length price_array)))) fuel st.
Proof.
  revert st. induction fuel as [|fuel IH]; intro st; cbn [while_loop].
  - reflexivity.
  - rewrite <- loop_body_clamp.
    destruct (idx st <? length price_array)%nat; [|reflexivity].
    destruct (loop_body price_array w st) as [[u|e] st']; [apply IH|reflexivity].
Qed.

(** C8.  On the storage of the configuration (1 MWh, 0.5 C, efficiency 0.85,
    no fee) and ten prices all equal to 50, [threshold_lookahead] returns,
    whatever the window size, without ever touching the storage: the storage
    it returns is the one it was given (empty, idle, with an empty transaction
    log), and the history has ten entries, each with action 0 and energy
    level 0. *)
Theorem flat_prices_never_trade (window_size : option Z) :
  threshold_lookahead flat_prices config_storage window_size
  = Some (Returns (config_storage, idle_history 10))
  /\ transactions config_storage = []
  /\ Forall (fun e => HistoryEntry.action e = 0%Z
                      /\ HistoryEntry.energy_level e == 0)
       (idle_history 10).
Proof.
  split; [|split].
  - unfold threshold_lookahead, simulate.
    rewrite while_loop_clamp.
    set (w := match window_size with
              | Some w => w
              | None => ROLLING_WINDOW_SIZE
              end).
    assert (Hw : In (Z.max 0 (Z.min w (Z.of_nat (length flat_prices))))
                   [0; 1; 2; 3; 4; 5; 6; 7; 8; 9; 10]%Z).
    { assert (0 <= Z.max 0 (Z.min w (Z.of_nat (length flat_prices))) <= 10)%Z
        by (cbn [flat_prices repeat length]; lia).
      cbn [In]. lia. }
    cbn [In] in Hw.
    repeat (destruct Hw as [<- | Hw]; [vm_compute; reflexivity|]).
    contradiction.
  - reflexivity.
  - vm_compute. repeat constructor.
Qed.

(** ** C7: the price recorded when a discharge completes *)

Lemma continue_process_discharging (i : Z) (s : EnergyStorage) :
  is_discharging (snd (continue_process i s)) = true ->
  is_discharging s = true.
Proof.
  unfold_methods. cbn. split_ifs; cbn; congruence.
Qed.

Lemma continue_process_start_index (i : Z) (s : EnergyStorage) :
  charging_start_index (snd (continue_process i s)) = charging_start_index s.
Proof.
  unfold_methods. cbn. split_ifs; reflexivity.
Qed.

Lemma start_charging_discharging (p : Q) (i : Z) (s : EnergyStorage) :
  is_discharging (snd (start_charging p i s)) = is_discharging s.
Proof.
  unfold_methods. cbn. split_ifs; reflexivity.
Qed.

Lemma start_discharging_start_index (p : Q) (i : Z) (s : EnergyStorage) :
  is_discharging s = false ->
  is_discharging (snd (start_discharging p i s)) = true ->
  charging_start_index (snd (start_discharging p i s)) = i.
Proof.
  unfold_methods. cbn. split_ifs; cbn; congruence.
Qed.

Lemma loop_body_discharge_tracked
    (price_array : list Q) (window_size : Z) (st st' : Locals) (u : unit) :
  discharge_tracked price_array st ->
  loop_body price_array window_size st = (Returns u, st') ->
  discharge_tracked price_array st'.
Proof.
  intros Hinv. unfold discharge_tracked in *. revert st' u.
  body_cases st; intros st' u H; inversion H; subst; clear H; cbn;
    intros Hdis Htarget.
  - (* charge target reached *)
    destruct (Hinv Hdis Htarget) as [j [Hj Hrest]]. exists j. split; [lia|exact Hrest].
  - (* charging continued *)
    pose proof (continue_process_discharging (Z.of_nat (idx st)) (storage st)) as Hd.
    pose proof (continue_process_start_index (Z.of_nat (idx st)) (storage st)) as Hi.
    rewrite Hcall in Hd, Hi. cbn in Hd, Hi.
    destruct (Hinv (Hd Hdis) Htarget) as [j [Hj Hrest]].
    exists j. rewrite Hi. split; [lia|exact Hrest].
  - (* discharge target reached *)
    discriminate.
  - (* discharging continued *)
    pose proof (continue_process_discharging (Z.of_nat (idx st)) (storage st)) as Hd.
    pose proof (continue_process_start_index (Z.of_nat (idx st)) (storage st)) as Hi.
    rewrite Hcall in Hd, Hi. cbn in Hd, Hi.
    destruct (Hinv (Hd Hdis) Htarget) as [j [Hj Hrest]].
    exists j. rewrite Hi. split; [lia|exact Hrest].
  - (* operation without a target continued *)
    pose proof (continue_process_discharging (Z.of_nat (idx st)) (storage st)) as Hd.
    pose proof (continue_process_start_index (Z.of_nat (idx st)) (storage st)) as Hi.
    rewrite Hcall in Hd, Hi. cbn in Hd, Hi.
    destruct (Hinv (Hd Hdis) Htarget) as [j [Hj Hrest]].
    exists j. rewrite Hi. split; [lia|exact Hrest].
  - (* charge started *)
    pose proof (start_charging_discharging price (Z.of_nat (idx st)) (storage st)) as Hd.
    rewrite Hcall in Hd. cbn in Hd.
    unfold is_processing in Hproc. apply orb_false_elim in Hproc as [_ Hidle].
    congruence.
  - (* discharge started *)
    unfold is_processing in Hproc. apply orb_false_elim in Hproc as [_ Hidle].
    pose proof (start_discharging_start_index price (Z.of_nat (idx st))
                  (storage st) Hidle) as Hi.
    rewrite Hcall in Hi. cbn in Hi.
    exists (idx st). split; [lia|]. split; [exact (Hi Hdis)|].
    split; [exact Hprice|reflexivity].
  - (* hold *)
    unfold is_processing in Hproc. apply orb_false_elim in Hproc as [_ Hidle].
    congruence.
  - (* hold, empty window *)
    unfold is_processing in Hproc. apply orb_false_elim in Hproc as [_ Hidle].
    congruence.
Qed.

(** C7, as stated, fails.  On [round_trip_prices] the discharge started at
    index 8 (price 100) completes at index 14, where the price is 10; the
    iteration at index 14 leaves [last_discharge_price] at 100, not at the
    price of index 14. *)
Lemma discharge_completion_does_not_record_current_price :
  exists st st',
    after round_trip_prices ROLLING_WINDOW_SIZE 14
      (initial_locals round_trip_storage) = Some st
    /\ idx st = 14%nat
    /\ is_discharging (storage st) = true
    /\ target_reached st = true
    /\ loop_body round_trip_prices ROLLING_WINDOW_SIZE st = (Returns tt, st')
    /\ is_discharging (storage st') = false
    /\ discharge_target st' = None
    /\ last_charge_price st' = PosInf
    /\ nth_error round_trip_prices 14 = Some 10
    /\ last_discharge_price st' == 100
    /\ ~ last_discharge_price st' == 10.
Proof.
  eexists. eexists.
  split; [vm_compute; reflexivity|].
  split; [reflexivity|].
  split; [reflexivity|].
  split; [vm_compute; reflexivity|].
  split; [vm_compute; reflexivity|].
  repeat split.
  intro H. vm_compute in H. discriminate.
Qed.

(** C7, amended.  When, in a run of [threshold_lookahead], the iteration at
    index [idx] finds a discharge in progress whose target is reached within
    the tolerance 0.1, it ends the discharge, clears the target and the
    operation price, resets [last_charge_price] to infinity and sets
    [last_discharge_price] to the value of the variable [current_price].
    That variable is only assigned at indices where no operation is running:
    it holds the price at the index [j < idx] where the discharge was
    started, which [last_discharge_price] already held, so the recorded
    price is not the price at [idx] and does not change. *)
Theorem discharge_completion_records_start_price
    (price_array : list Q) (window_size : Z) (s0 : EnergyStorage)
    (n : nat) (st : Locals) (target : Q) :
  after price_array window_size n (initial_locals s0) = Some st ->
  is_charging (storage st) = false ->
  is_discharging (storage st) = true ->
  discharge_target st = Some target ->
  Qle_bool (energy_level (storage st)) (target + 0.1) = true ->
  exists st' j,
    loop_body price_array window_size st = (Returns tt, st')
    /\ idx st = n /\ idx st' = S n
    /\ is_discharging (storage st') = false
    /\ discharge_target st' = None
    /\ current_operation_price st' = None
    /\ last_charge_price st' = PosInf
    /\ current_price st = Some (last_discharge_price st')
    /\ (j < n)%nat
    /\ charging_start_index (storage st) = Z.of_nat j
    /\ nth_error price_array j = Some (last_discharge_price st')
    /\ last_discharge_price st' = last_discharge_price st.
Proof.
  intros Hafter Hch Hdis Htarget Hreached.
  assert (Hinv : discharge_tracked price_array st).
  { apply (after_invariant price_array window_size
             (discharge_tracked price_array)
             ltac:(intros st1 st2 u H1 _ H2;
                   exact (loop_body_discharge_tracked _ _ _ _ _ H1 H2))
             n (initial_locals s0) st); [|exact Hafter].
    intros _ H. cbn in H. congruence. }
  destruct (Hinv Hdis ltac:(congruence)) as [j [Hj [Hstart [Hprice Hcur]]]].
  apply after_idx in Hafter. cbn in Hafter. rewrite Nat.add_0_r in Hafter.
  eexists. exists j.
  split.
  - unfold_engine. cbn. unfold is_processing.
    rewrite Hch, Hdis, Htarget. cbn. rewrite Hreached. cbn. reflexivity.
  - cbn. rewrite Hcur. cbn. rewrite Hafter in *. repeat split; auto.
Qed.

Lemma discharge_completion_records_start_price_witness :
  exists st',
    nth_error round_trip_prices 8 = Some (last_discharge_price st')
    /\ last_charge_price st' = PosInf.
Proof.
  let v := eval vm_compute in
    (after round_trip_prices ROLLING_WINDOW_SIZE 14
       (initial_locals round_trip_storage)) in
  match v with
  | Some ?st =>
      edestruct (discharge_completion_records_start_price
                   round_trip_prices ROLLING_WINDOW_SIZE round_trip_storage
                   14 st)
        as [st' [j [_ [_ [_ [_ [_ [_ [Hinf [_ [Hj [Hstart [Hprice _]]]]]]]]]]]]]
  end.
  - vm_compute. reflexivity.
  - reflexivity.
  - reflexivity.
  - reflexivity.
  - vm_compute. reflexivity.
  - exists st'. split; [|exact Hinf].
    cbn in Hstart. assert (j = 8%nat) as <- by lia. exact Hprice.
Defined.

(** ** C4: a step that can move no energy *)




(** * Further properties *)

(** ** [create_trading_summary] *)

Lemma total_intervals_app (l1 l2 : list Trade.t) :
  total_intervals (l1 ++ l2) = (total_intervals l1 + total_intervals l2)%nat.
Proof.
  unfold total_intervals.
  induction l1 as [|tr l1 IH]; cbn [app fold_right]; [reflexivity|].
  rewrite IH. lia.
Qed.

(** While the entries are idle and no trade is open, nothing happens. *)
Lemma summary_loop_idle (h : list HistoryEntry.t) (l : list HistoryEntry.t) :
  forall i trades,
    Forall (fun e => active e = false) l ->
    summary_loop h i l (trades, None) = Returns (trades, None).
Proof.
  induction l as [|e l IH]; intros i trades Hl; cbn [summary_loop].
  - reflexivity.
  - inversion Hl as [|? ? He Hl']. subst. unfold active in He.
    cbn [summary_step]. rewrite He. apply IH. exact Hl'.
Qed.

(** While the entries are active and a trade is open, only its interval
    count grows. *)
Lemma summary_loop_active (h : list HistoryEntry.t) (l : list HistoryEntry.t) :
  forall i trades tr,
    Forall (fun e => active e = true) l ->
    summary_loop h i l (trades, Some tr) =
    Returns
      (trades,
       Some {| OpenTrade.type := OpenTrade.type tr;
               OpenTrade.start_index := OpenTrade.start_index tr;
               OpenTrade.start_energy := OpenTrade.start_energy tr;
               OpenTrade.intervals := (OpenTrade.intervals tr + length l)%nat |}).
Proof.
  induction l as [|e l IH]; intros i trades tr Hl; cbn [summary_loop].
  - cbn. rewrite Nat.add_0_r. destruct tr; reflexivity.
  - inversion Hl as [|? ? He Hl']. subst. unfold active in He.
    apply negb_true_iff in He. cbn [summary_step]. rewrite He.
    rewrite IH by exact Hl'. cbn. repeat f_equal. lia.
Qed.

Lemma summary_loop_app (h : list HistoryEntry.t) (l1 l2 : list HistoryEntry.t) :
  forall i acc,
    summary_loop h i (l1 ++ l2) acc =
    match summary_loop h i l1 acc with
    | Returns acc1 => summary_loop h (i + length l1) l2 acc1
    | Raises e => Raises e
    end.
Proof.
  induction l1 as [|e l1 IH]; intros i acc; cbn [summary_loop app length].
  - rewrite Nat.add_0_r. reflexivity.
  - destruct (summary_step h i e acc) as [acc'|ex]; [|reflexivity].
    rewrite IH. replace (S i + length l1)%nat with (i + S (length l1))%nat by lia.
    reflexivity.
Qed.

Lemma py_last_nonempty {A : Type} (l : list A) (d : A) :
  l <> [] -> py_last l = Returns (last l d).
Proof.
  intro Hl. destruct (exists_last Hl) as [l' [a ->]].
  unfold py_last. rewrite rev_app_distr, last_last. reflexivity.
Qed.

(** The lookup [energy_history[i - 1]] of a step is always in range. *)
Lemma summary_step_returns (pre rest : list HistoryEntry.t)
    (state : HistoryEntry.t) (acc : list Trade.t * option OpenTrade.t) :
  exists acc',
    summary_step (pre ++ state :: rest) (length pre) state acc = Returns acc'.
Proof.
  destruct acc as [trades [tr|]]; cbn [summary_step].
  - destruct (HistoryEntry.action state =? 0)%Z; [|eauto].
    destruct (0 <? length pre)%nat eqn:E; [|eauto].
    destruct (nth_error (pre ++ state :: rest) (length pre - 1)) eqn:N; [eauto|].
    apply nth_error_None in N. rewrite length_app in N. cbn in N. lia.
  - destruct (negb _); eauto.
Qed.

Lemma summary_loop_returns (rest : list HistoryEntry.t) :
  forall pre acc,
    exists acc',
      summary_loop (pre ++ rest) (length pre) rest acc = Returns acc'.
Proof.
  induction rest as [|state rest IH]; intros pre acc; cbn [summary_loop].
  - eauto.
  - destruct (summary_step_returns pre rest state acc) as [acc' ->].
    specialize (IH (pre ++ [state]) acc').
    rewrite <- app_assoc, length_app in IH. cbn in IH.
    rewrite Nat.add_1_r in IH. exact IH.
Qed.

(** A step adds one interval for an active entry and none for an idle one;
    no trade, open or closed, has fewer than one interval. *)
Lemma summary_step_count (h : list HistoryEntry.t) (i : nat)
    (state : HistoryEntry.t) (trades trades' : list Trade.t)
    (cur cur' : option OpenTrade.t) :
  summary_step h i state (trades, cur) = Returns (trades', cur') ->
  Forall (fun tr => (1 <= Trade.intervals tr)%nat) trades ->
  (forall tr, cur = Some tr -> (1 <= OpenTrade.intervals tr)%nat) ->
  (total_intervals trades' + open_intervals cur'
   = total_intervals trades + open_intervals cur
     + (if active state then 1 else 0))%nat
  /\ Forall (fun tr => (1 <= Trade.intervals tr)%nat) trades'
  /\ (forall tr, cur' = Some tr -> (1 <= OpenTrade.intervals tr)%nat).
Proof.
  intros Hstep Hall Hcur. unfold active.
  destruct cur as [tr|]; cbn [summary_step] in Hstep.
  - specialize (Hcur tr eq_refl).
    destruct (HistoryEntry.action state =? 0)%Z; cbn [negb].
    + destruct (if (0 <? i)%nat then _ else _); [|discriminate].
      inversion Hstep; subst; clear Hstep.
      rewrite total_intervals_app. cbn. split; [lia|]. split.
      * apply Forall_app. split; [exact Hall|]. repeat constructor. exact Hcur.
      * discriminate.
    + inversion Hstep; subst; clear Hstep. cbn. split; [lia|].
      split; [exact Hall|]. intros tr' E. inversion E. cbn. lia.
  - destruct (HistoryEntry.action state =? 0)%Z; cbn [negb] in *;
      inversion Hstep; subst; clear Hstep; cbn.
    + split; [lia|]. split; [exact Hall|]. discriminate.
    + split; [lia|]. split; [exact Hall|]. intros tr' E. inversion E. cbn. lia.
Qed.

Lemma summary_loop_count (h : list HistoryEntry.t) (rest : list HistoryEntry.t) :
  forall i trades cur trades' cur',
    summary_loop h i rest (trades, cur) = Returns (trades', cur') ->
    Forall (fun tr => (1 <= Trade.intervals tr)%nat) trades ->
    (forall tr, cur = Some tr -> (1 <= OpenTrade.intervals tr)%nat) ->
    (total_intervals trades' + open_intervals cur'
     = total_intervals trades + open_intervals cur
       + length (filter active rest))%nat
    /\ Forall (fun tr => (1 <= Trade.intervals tr)%nat) trades'
    /\ (forall tr, cur' = Some tr -> (1 <= OpenTrade.intervals tr)%nat).
Proof.
  induction rest as [|state rest IH]; intros i trades cur trades' cur' Hloop Hall Hcur;
    cbn [summary_loop] in Hloop.
  - inversion Hloop; subst. cbn. split; [lia|]. split; assumption.
  - destruct (summary_step h i state (trades, cur)) as [[trades1 cur1]|e] eqn:Hstep;
      [|discriminate].
    destruct (summary_step_count _ _ _ _ _ _ _ Hstep Hall Hcur) as [Hn [Hall1 Hcur1]].
    destruct (IH _ _ _ _ _ Hloop Hall1 Hcur1) as [Hn' [Hall' Hcur']].
    split; [|split; assumption].
    cbn [filter]. destruct (active state); cbn [length]; lia.
Qed.

(** X: the summary never raises, every active entry is counted in exactly
    one trade, and no trade is empty. *)
Theorem trading_summary_counts_active_entries (h : list HistoryEntry.t) :
  exists trades,
    create_trading_summary h = Returns trades
    /\ total_intervals trades = length (filter active h)
    /\ Forall (fun tr => (1 <= Trade.intervals tr)%nat) trades
    /\ (length trades <= length (filter active h))%nat.
Proof.
  assert (Hlen : forall l, Forall (fun tr => (1 <= Trade.intervals tr)%nat) l ->
                           (length l <= total_intervals l)%nat).
  { induction 1 as [|tr l Htr _ IH]; unfold total_intervals in *;
      cbn [fold_right length]; lia. }
  unfold create_trading_summary.
  destruct (summary_loop_returns h [] ([], None)) as [[trades cur] Hloop].
  cbn [app length] in Hloop. rewrite Hloop.
  destruct (summary_loop_count h h 0 [] None trades cur Hloop
              ltac:(constructor) ltac:(discriminate)) as [Hn [Hall Hcur]].
  cbn in Hn.
  destruct cur as [tr|].
  - destruct h as [|e h']; [cbn in Hloop; discriminate|].
    rewrite (py_last_nonempty (e :: h') e) by discriminate.
    set (final := last (e :: h') e).
    eexists. split; [reflexivity|].
    assert (Hall' : Forall (fun tr0 => (1 <= Trade.intervals tr0)%nat)
                      (trades ++ [close_trade tr
                         (Z.of_nat (HistoryEntry.time_index final))
                         (HistoryEntry.energy_level final)])).
    { apply Forall_app. split; [exact Hall|]. repeat constructor.
      cbn. apply Hcur. reflexivity. }
    assert (Htot : total_intervals
                     (trades ++ [close_trade tr
                        (Z.of_nat (HistoryEntry.time_index final))
                        (HistoryEntry.energy_level final)])
                   = length (filter active (e :: h'))).
    { rewrite total_intervals_app. cbn in *. lia. }
    split; [exact Htot|]. split; [exact Hall'|].
    rewrite <- Htot. apply Hlen. exact Hall'.
  - exists trades. split; [reflexivity|]. cbn in Hn.
    split; [lia|]. split; [exact Hall|].
    specialize (Hlen trades Hall). lia.
Qed.

Lemma last_app_nonempty {A : Type} (l1 l2 : list A) (d : A) :
  l2 <> [] -> last (l1 ++ l2) d = last l2 d.
Proof.
  intro Hl. destruct (exists_last Hl) as [l' [a ->]].
  rewrite app_assoc, !last_last. reflexivity.
Qed.

Lemma last_cons {A : Type} (l : list A) :
  forall x d, last (x :: l) d = last l x.
Proof.
  induction l as [|y l IH]; intros x d; [reflexivity|].
  change (last (x :: y :: l) d) with (last (y :: l) d).
  rewrite (IH y d), (IH y x). reflexivity.
Qed.

Lemma nth_error_end_of_run {A : Type} (run post : list A) :
  forall first,
    nth_error (first :: run ++ post) (length run) = Some (last run first).
Proof.
  induction run as [|x run IH]; intro first; [reflexivity|].
  cbn [length app nth_error]. rewrite IH, last_cons. reflexivity.
Qed.

(** X: a history without an active entry (the empty one included) has no
    trades. *)
Theorem trading_summary_of_idle_history (h : list HistoryEntry.t) :
  Forall is_idle_entry h -> create_trading_summary h = Returns [].
Proof.
  intro Hh. unfold create_trading_summary.
  rewrite summary_loop_idle by exact Hh. reflexivity.
Qed.

Lemma trading_summary_of_idle_history_witness :
  create_trading_summary (idle_history 10) = Returns []
  /\ create_trading_summary [] = Returns [].
Proof.
  split; apply trading_summary_of_idle_history; repeat constructor.
Defined.

(** X: one maximal run of active entries between idle ones gives exactly one
    trade.  Its type and start are those of the first entry of the run,
    whatever the actions of the later entries (a change of sign inside the
    run does not start a new trade); its interval count is the length of the
    run; its end energy is the level recorded in the last entry of the run;
    its end index is the index before the idle entry that follows, or the
    index of the last entry when the history ends with the run. *)
Theorem trading_summary_of_single_run
    (pre run post : list HistoryEntry.t) (first : HistoryEntry.t) :
  Forall is_idle_entry pre ->
  is_active_entry first ->
  Forall is_active_entry run ->
  Forall is_idle_entry post ->
  let final := last run first in
  create_trading_summary (pre ++ first :: run ++ post) =
  Returns
    [{| Trade.type :=
          if (HistoryEntry.action first =? 1)%Z then charge_trade
          else discharge_trade;
        Trade.start_index := HistoryEntry.time_index first;
        Trade.start_energy := HistoryEntry.energy_level first;
        Trade.intervals := S (length run);
        Trade.end_index :=
          match post with
          | [] => Z.of_nat (HistoryEntry.time_index final)
          | next :: _ => (Z.of_nat (HistoryEntry.time_index next) - 1)%Z
          end;
        Trade.end_energy := HistoryEntry.energy_level final;
        Trade.energy_traded :=
          Qabs (HistoryEntry.energy_level final
                - HistoryEntry.energy_level first) |}].
Proof.
  intros Hpre Hfirst Hrun Hpost final.
  unfold create_trading_summary.
  rewrite summary_loop_app, summary_loop_idle by exact Hpre.
  cbn [summary_loop summary_step].
  unfold is_active_entry, active in Hfirst. rewrite Hfirst.
  rewrite summary_loop_app, summary_loop_active by exact Hrun.
  cbn [OpenTrade.type OpenTrade.start_index OpenTrade.start_energy
       OpenTrade.intervals].
  destruct post as [|next post].
  - cbn [summary_loop].
    rewrite (py_last_nonempty _ first) by (destruct pre; discriminate).
    rewrite app_nil_r.
    rewrite (last_app_nonempty pre (first :: run) first) by discriminate.
    rewrite last_cons. fold final. reflexivity.
  - inversion Hpost as [|? ? Hnext Hpost']. subst.
    unfold is_idle_entry, active in Hnext. apply negb_false_iff in Hnext.
    cbn [summary_loop summary_step]. rewrite Hnext.
    replace (0 <? S (0 + length pre) + length run)%nat with true
      by (symmetry; apply Nat.ltb_lt; lia).
    replace (S (0 + length pre) + length run - 1)%nat
      with (length pre + length run)%nat by lia.
    rewrite nth_error_app2 by lia.
    replace (length pre + length run - length pre)%nat with (length run) by lia.
    rewrite nth_error_end_of_run.
    rewrite summary_loop_idle by exact Hpost'.
    reflexivity.
Qed.

Lemma trading_summary_of_single_run_witness :
  exists tr,
    create_trading_summary
      [ {| HistoryEntry.time_index := 0; HistoryEntry.energy_level := 0;
           HistoryEntry.action := 0 |};
        {| HistoryEntry.time_index := 1; HistoryEntry.energy_level := 1;
           HistoryEntry.action := 1 |};
        {| HistoryEntry.time_index := 2; HistoryEntry.energy_level := 2;
           HistoryEntry.action := (-1) |};
        {| HistoryEntry.time_index := 3; HistoryEntry.energy_level := 1;
           HistoryEntry.action := 1 |};
        {| HistoryEntry.time_index := 4; HistoryEntry.energy_level := 2;
           HistoryEntry.action := 0 |} ] = Returns [tr]
    /\ Trade.intervals tr = 3%nat
    /\ Trade.type tr = charge_trade.
Proof.
  eexists. split.
  - apply (trading_summary_of_single_run
             [ {| HistoryEntry.time_index := 0; HistoryEntry.energy_level := 0;
                  HistoryEntry.action := 0 |} ]
             [ {| HistoryEntry.time_index := 2; HistoryEntry.energy_level := 2;
                  HistoryEntry.action := (-1) |};
               {| HistoryEntry.time_index := 3; HistoryEntry.energy_level := 1;
                  HistoryEntry.action := 1 |} ]
             [ {| HistoryEntry.time_index := 4; HistoryEntry.energy_level := 2;
                  HistoryEntry.action := 0 |} ]
             {| HistoryEntry.time_index := 1; HistoryEntry.energy_level := 1;
                HistoryEntry.action := 1 |});
      repeat constructor.
  - split; reflexivity.
Defined.

(** The loop reads [energy_history] only below the index it has reached. *)
Lemma summary_loop_ext (h h' : list HistoryEntry.t) (rest : list HistoryEntry.t) :
  forall i acc,
    (forall k, (k < i + length rest)%nat -> nth_error h k = nth_error h' k) ->
    summary_loop h i rest acc = summary_loop h' i rest acc.
Proof.
  induction rest as [|state rest IH]; intros i acc Hagree; cbn [summary_loop].
  - reflexivity.
  - assert (Hstep : summary_step h i state acc = summary_step h' i state acc).
    { destruct acc as [trades [tr|]]; cbn [summary_step]; [|reflexivity].
      destruct (HistoryEntry.action state =? 0)%Z; [|reflexivity].
      destruct (0 <? i)%nat eqn:E; [|reflexivity].
      apply Nat.ltb_lt in E. rewrite (Hagree (i - 1)%nat) by (cbn; lia).
      reflexivity. }
    rewrite Hstep. destruct (summary_step h' i state acc); [|reflexivity].
    apply IH. intros k Hk. apply Hagree. cbn. lia.
Qed.

(** Behind a prefix [h1] the loop on [h2] does what it does on [h2] alone,
    as long as no trade is open at the first entry of [h2]. *)
Lemma summary_loop_shift (h1 h2 : list HistoryEntry.t) (t1 : list Trade.t)
    (rest : list HistoryEntry.t) :
  forall j trades cur,
    (cur <> None -> (0 < j)%nat) ->
    summary_loop (h1 ++ h2) (length h1 + j) rest (t1 ++ trades, cur) =
    match summary_loop h2 j rest (trades, cur) with
    | Returns (trades', cur') => Returns (t1 ++ trades', cur')
    | Raises e => Raises e
    end.
Proof.
  induction rest as [|state rest IH]; intros j trades cur Hcur; cbn [summary_loop].
  - reflexivity.
  - assert (Hstep :
      summary_step (h1 ++ h2) (length h1 + j) state (t1 ++ trades, cur) =
      match summary_step h2 j state (trades, cur) with
      | Returns (trades', cur') => Returns (t1 ++ trades', cur')
      | Raises e => Raises e
      end).
    { destruct cur as [tr|]; cbn [summary_step].
      - specialize (Hcur ltac:(discriminate)).
        destruct (HistoryEntry.action state =? 0)%Z; [|reflexivity].
        replace (0 <? length h1 + j)%nat with true
          by (symmetry; apply Nat.ltb_lt; lia).
        replace (0 <? j)%nat with true by (symmetry; apply Nat.ltb_lt; lia).
        rewrite nth_error_app2 by lia.
        replace (length h1 + j - 1 - length h1)%nat with (j - 1)%nat by lia.
        destruct (nth_error h2 (j - 1)); [|reflexivity].
        rewrite app_assoc. reflexivity.
      - destruct (negb _); reflexivity. }
    rewrite Hstep.
    destruct (summary_step h2 j state (trades, cur)) as [[trades1 cur1]|e];
      [|reflexivity].
    replace (S (length h1 + j)) with (length h1 + S j)%nat by lia.
    apply IH. intro. lia.
Qed.

(** After an idle entry no trade is open. *)
Lemma summary_loop_closed_after_idle (h : list HistoryEntry.t)
    (l : list HistoryEntry.t) (e : HistoryEntry.t) :
  forall i acc trades cur,
    is_idle_entry e ->
    summary_loop h i (l ++ [e]) acc = Returns (trades, cur) ->
    cur = None.
Proof.
  intros i acc trades cur He. rewrite summary_loop_app.
  destruct (summary_loop h i l acc) as [[trades1 cur1]|ex]; [|discriminate].
  cbn [summary_loop summary_step].
  unfold is_idle_entry, active in He. apply negb_false_iff in He.
  rewrite He. cbn [negb].
  destruct cur1 as [tr|].
  - destruct (if (0 <? i + length l)%nat then _ else _); [|discriminate].
    intro H. inversion H. reflexivity.
  - intro H. inversion H. reflexivity.
Qed.

(** X: the summary of a history cut behind an idle entry is the summary of
    the first part followed by the summary of the second. *)
Theorem trading_summary_splits_at_idle_entry
    (l h2 : list HistoryEntry.t) (e : HistoryEntry.t) :
  is_idle_entry e ->
  exists t1 t2,
    create_trading_summary (l ++ [e]) = Returns t1
    /\ create_trading_summary h2 = Returns t2
    /\ create_trading_summary ((l ++ [e]) ++ h2) = Returns (t1 ++ t2).
Proof.
  intro He. set (h1 := l ++ [e]).
  destruct (summary_loop_returns h1 [] ([], None)) as [[t1 cur1] H1].
  cbn [app length] in H1.
  assert (cur1 = None) as ->
    by (exact (summary_loop_closed_after_idle _ _ _ _ _ _ _ He H1)).
  destruct (summary_loop_returns h2 [] ([], None)) as [[t2 cur2] H2].
  cbn [app length] in H2.
  assert (H12 : summary_loop (h1 ++ h2) 0 (h1 ++ h2) ([], None)
                = Returns (t1 ++ t2, cur2)).
  { rewrite summary_loop_app.
    rewrite (summary_loop_ext (h1 ++ h2) h1 h1 0 ([], None))
      by (intros k Hk; apply nth_error_app1; exact Hk).
    rewrite H1. cbn [Nat.add].
    pose proof (summary_loop_shift h1 h2 t1 h2 0 [] None
                  ltac:(intro H; contradiction)) as Hs.
    rewrite app_nil_r, Nat.add_0_r in Hs. rewrite Hs, H2. reflexivity. }
  unfold create_trading_summary. rewrite H1, H2, H12.
  destruct cur2 as [tr|].
  - assert (Hne : h2 <> []) by (intro; subst h2; discriminate).
    rewrite (py_last_nonempty h2 e Hne).
    rewrite (py_last_nonempty (h1 ++ h2) e)
      by (intro E; apply app_eq_nil in E as [_ E]; contradiction).
    rewrite (last_app_nonempty h1 h2 e Hne).
    eexists. eexists. split; [reflexivity|]. split; [reflexivity|].
    rewrite app_assoc. reflexivity.
  - exists t1, t2. repeat split.
Qed.

Lemma trading_summary_splits_at_idle_entry_witness :
  exists t1 t2,
    create_trading_summary (idle_history 3) = Returns t1
    /\ create_trading_summary (idle_history 2) = Returns t2
    /\ create_trading_summary (idle_history 3 ++ idle_history 2)
       = Returns (t1 ++ t2).
Proof.
  apply (trading_summary_splits_at_idle_entry
           (idle_history 2)
           (idle_history 2)
           {| HistoryEntry.time_index := 2; HistoryEntry.energy_level := 0;
              HistoryEntry.action := 0 |}).
  reflexivity.
Defined.

(** ** Energy and efficiency bookkeeping of the storage *)

Lemma exec_efficiency (c : call) (s : EnergyStorage) :
  efficiency (exec c s) = efficiency s.
Proof.
  destruct c; unfold_methods; cbn; split_ifs; reflexivity.
Qed.

Lemma exec_energy_balanced (c : call) (s : EnergyStorage) :
  energy_balanced s -> energy_balanced (exec c s).
Proof.
  unfold energy_balanced.
  destruct c; unfold_methods; cbn; split_ifs; cbn; intro H;
    abstract_min; lra.
Qed.

Lemma exec_losses_consistent (c : call) (s : EnergyStorage) :
  losses_consistent s -> losses_consistent (exec c s).
Proof.
  unfold losses_consistent.
  destruct c; unfold_methods; cbn; split_ifs; cbn; intros [H1 [H2 H3]];
    abstract_min; repeat split; try assumption; try lra;
    try (rewrite H1; ring); try (rewrite H2; ring); try (rewrite H3; ring).
Qed.

Lemma exec_totals_nonneg (c : call) (s : EnergyStorage) :
  totals_nonneg s -> totals_nonneg (exec c s).
Proof.
  unfold totals_nonneg.
  destruct c; unfold_methods; cbn; split_ifs; cbn; intros [H1 H2];
    qprop; abstract_min; split; lra.
Qed.

(** X: the stored energy is always the energy charged so far minus the gross
    energy withdrawn so far, also across daily resets and at the end of a
    strategy run. *)
Theorem stored_energy_is_charged_minus_withdrawn
    (capacity_mwh rate eff fee : Q) :
  let s0 := __init__ capacity_mwh rate eff fee in
  (forall cs,
      energy_level (run_calls cs s0)
      == total_charged_energy (run_calls cs s0)
         - total_gross_energy (run_calls cs s0))
  /\ (forall price_array window_size,
         exists r st,
           simulate price_array s0 window_size = Some (r, st)
           /\ energy_level (storage st)
              == total_charged_energy (storage st)
                 - total_gross_energy (storage st)).
Proof.
  intro s0.
  assert (H0 : energy_balanced s0) by (unfold energy_balanced, s0; cbn; lra).
  split.
  - intro cs. apply (run_calls_always energy_balanced exec_energy_balanced).
    exact H0.
  - intros price_array window_size.
    destruct (simulate_terminates price_array s0 window_size) as [r [st Hrun]].
    exists r, st. split; [exact Hrun|].
    apply (simulate_storage_invariant energy_balanced _ _ _ _ _
             ltac:(intros c s _; apply exec_energy_balanced) H0 Hrun).
Qed.

(** X: [get_actual_efficiency] never divides by zero and reports either 0
    (nothing sold yet, or sales that cancelled out) or exactly the configured
    efficiency in percent; the loss accumulators are the [1 - efficiency]
    share of the gross energy and of the gross revenue. *)
Theorem actual_efficiency_is_configured_efficiency
    (capacity_mwh rate eff fee : Q) (cs : list call) :
  let s := run_calls cs (__init__ capacity_mwh rate eff fee) in
  efficiency s = eff
  /\ total_discharged_energy s == total_gross_energy s * eff
  /\ energy_losses s == total_gross_energy s * (1 - eff)
  /\ efficiency_losses s == gross_energy_revenue s * (1 - eff)
  /\ (gross_energy_revenue s == 0 -> get_actual_efficiency s = 0)
  /\ (~ gross_energy_revenue s == 0 -> get_actual_efficiency s == eff * 100).
Proof.
  intro s.
  assert (He : efficiency s = eff).
  { apply (run_calls_always (fun s' => efficiency s' = eff)); [|reflexivity].
    intros c s' H. rewrite exec_efficiency. exact H. }
  assert (Hl : losses_consistent s).
  { apply (run_calls_always losses_consistent exec_losses_consistent).
    unfold losses_consistent. cbn. repeat split; lra. }
  destruct Hl as [H1 [H2 H3]]. rewrite He in H1, H2, H3.
  repeat split; try assumption.
  - intro Hz. unfold get_actual_efficiency.
    apply Qeq_bool_iff in Hz. rewrite Hz. reflexivity.
  - intro Hnz. unfold get_actual_efficiency.
    apply Qeq_bool_false in Hnz as Hb. rewrite Hb.
    rewrite H3. field. exact Hnz.
Qed.

Lemma actual_efficiency_is_configured_efficiency_witness :
  get_actual_efficiency
    (run_calls [StartCharging 5 0; ClearIsCharging; StartDischarging 100 1]
       config_storage) == 85.
Proof.
  destruct (actual_efficiency_is_configured_efficiency 1 0.5 0.85 0
              [StartCharging 5 0; ClearIsCharging; StartDischarging 100 1])
    as [_ [_ [_ [_ [_ H]]]]].
  unfold config_storage. rewrite H.
  - reflexivity.
  - vm_compute. discriminate.
Defined.

(** X: [get_energy_efficiency] never divides by zero; for a storage with a
    positive capacity and an efficiency of at least 0 it lies between 0 and
    the configured efficiency in percent, since no more can have been
    withdrawn than was charged. *)
Theorem energy_efficiency_bounded_by_efficiency
    (capacity_mwh rate eff fee : Q) (cs : list call) :
  0 < capacity_mwh ->
  0 <= eff ->
  let s := run_calls cs (__init__ capacity_mwh rate eff fee) in
  total_gross_energy s <= total_charged_energy s
  /\ 0 <= get_energy_efficiency s
  /\ get_energy_efficiency s <= eff * 100.
Proof.
  intros Hcap Heff s.
  set (s0 := __init__ capacity_mwh rate eff fee).
  assert (Hlevel : level_ok s).
  { apply (run_calls_always level_ok exec_level_ok).
    unfold level_ok. cbn. lra. }
  assert (Hbal : energy_balanced s).
  { apply (run_calls_always energy_balanced exec_energy_balanced).
    unfold energy_balanced. cbn. lra. }
  assert (Hl : losses_consistent s).
  { apply (run_calls_always losses_consistent exec_losses_consistent).
    unfold losses_consistent. cbn. repeat split; lra. }
  assert (Hnn : totals_nonneg s).
  { apply (run_calls_always totals_nonneg exec_totals_nonneg).
    unfold totals_nonneg. cbn. split; lra. }
  assert (He : efficiency s = eff).
  { apply (run_calls_always (fun s' => efficiency s' = eff)); [|reflexivity].
    intros c s' H. rewrite exec_efficiency. exact H. }
  destruct Hlevel as [Hlo _]. destruct Hl as [Hd _]. destruct Hnn as [Hc Hg].
  unfold energy_balanced in Hbal. rewrite He in Hd.
  assert (Hle : total_gross_energy s <= total_charged_energy s) by lra.
  split; [exact Hle|].
  unfold get_energy_efficiency.
  destruct (Qeq_bool (total_charged_energy s) 0) eqn:E; qprop.
  - split; [lra | nra].
  - assert (Hpos : 0 < total_charged_energy s) by lra.
    assert (Hdn : 0 <= total_discharged_energy s) by nra.
    assert (Hdl : total_discharged_energy s <= eff * total_charged_energy s) by nra.
    split.
    + apply Qmult_le_0_compat; [|lra].
      apply Qle_shift_div_l; [exact Hpos|lra].
    + assert (total_discharged_energy s / total_charged_energy s <= eff)
        by (apply Qle_shift_div_r; [exact Hpos|lra]).
      lra.
Qed.

Lemma energy_efficiency_bounded_by_efficiency_witness :
  get_energy_efficiency
    (run_calls [StartCharging 5 0; ContinueProcess 1; ClearIsCharging;
                StartDischarging 100 2] config_storage) <= 85.
Proof.
  destruct (energy_efficiency_bounded_by_efficiency 1 0.5 0.85 0
              [StartCharging 5 0; ContinueProcess 1; ClearIsCharging;
               StartDischarging 100 2]) as [_ [_ H]].
  - reflexivity.
  - vm_compute. discriminate.
  - unfold config_storage. lra.
Defined.

(** ** What the starts return *)

Lemma py_min_cases (a b : Q) :
  (b < a /\ py_min a b == b) \/ (a <= b /\ py_min a b == a).
Proof.
  unfold py_min. destruct (Qlt_bool b a) eqn:E; qprop;
    [left|right]; split; lra.
Qed.

Lemma py_min_pos (a b : Q) : 0 < py_min a b <-> 0 < a /\ 0 < b.
Proof.
  unfold py_min. destruct (Qlt_bool b a) eqn:E; qprop; split;
    try (intros [? ?]); try split; lra.
Qed.

(** X: [start_charging] never raises and returns [True] exactly when the
    storage is idle, not full, and has a positive power; it then is in
    charging mode at the given price and has logged one charge transaction
    whose cost is [amount * price + amount * fee_per_mwh]. *)
Theorem start_charging_succeeds_iff
    (s : EnergyStorage) (price : Q) (time_index : Z) :
  let r := start_charging price time_index s in
  (exists b, fst r = Returns b)
  /\ (fst r = Returns true
      <-> is_charging s = false /\ is_discharging s = false
          /\ energy_level s < capacity s /\ 0 < max_power s)
  /\ (fst r = Returns true ->
      let amount := py_min (max_power s * 0.25) (capacity s - energy_level s) in
      is_charging (snd r) = true
      /\ charging_price (snd r) = price
      /\ energy_level (snd r) == energy_level s + amount
      /\ cash (snd r) == cash s - (amount * price + amount * fee_per_mwh s)
      /\ exists tx,
           transactions (snd r) = transactions s ++ [charge tx]
           /\ ChargeTx.amount tx = amount
           /\ ChargeTx.price tx = price
           /\ ChargeTx.cost tx = amount * price + amount * fee_per_mwh s
           /\ ChargeTx.index tx = time_index
           /\ ChargeTx.interval tx = 0%Z).
Proof.
  cbv zeta.
  pose proof (py_min_pos (max_power s * 0.25) (capacity s - energy_level s)) as Hpos.
  unfold start_charging, _charge_step.
  destruct (is_charging s) eqn:Hc; cbn [orb].
  { split; [eexists; reflexivity|]. split; [split; [discriminate|intros [? _]; discriminate]|].
    discriminate. }
  destruct (is_discharging s) eqn:Hd; cbn [orb].
  { split; [eexists; reflexivity|].
    split; [split; [discriminate|intros [_ [? _]]; discriminate]|].
    discriminate. }
  destruct (Qle_bool (capacity s) (energy_level s)) eqn:Hfull; qprop.
  { split; [eexists; reflexivity|].
    split; [split; [discriminate|intros [_ [_ [? _]]]; lra]|].
    discriminate. }
  cbn.
  destruct (Qle_bool (py_min (max_power s * 0.25) (capacity s - energy_level s)) 0)
    eqn:Hamount; qprop; cbn.
  - split; [eexists; reflexivity|]. split; [|discriminate].
    split; [discriminate|]. intros [_ [_ [He Hp]]].
    assert (0 < py_min (max_power s * 0.25) (capacity s - energy_level s))
      by (apply Hpos; lra). lra.
  - split; [eexists; reflexivity|]. split.
    + split; [|reflexivity]. intros _. apply Hpos in Hamount.
      repeat split; lra.
    + intros _. repeat split; try reflexivity.
      eexists. repeat split; reflexivity.
Qed.

(** X: [start_discharging] returns [True] exactly when the storage is idle,
    not empty, has a positive power and a non-zero capacity; with a zero
    capacity the same start raises ZeroDivisionError (after having withdrawn
    the energy); in every other case it returns [False]. *)
Theorem start_discharging_succeeds_iff
    (s : EnergyStorage) (price : Q) (time_index : Z) :
  let r := start_discharging price time_index s in
  let ready := is_charging s = false /\ is_discharging s = false
               /\ 0 < energy_level s /\ 0 < max_power s in
  (fst r = Returns true <-> ready /\ ~ capacity s == 0)
  /\ (fst r = Raises ZeroDivisionError <-> ready /\ capacity s == 0)
  /\ (fst r = Returns false <-> ~ ready)
  /\ (fst r = Returns true ->
      let amount := py_min (max_power s * 0.25) (energy_level s) in
      is_discharging (snd r) = true
      /\ discharging_price (snd r) = price
      /\ energy_level (snd r) == energy_level s - amount
      /\ cash (snd r)
         == cash s + amount * efficiency s * (price - fee_per_mwh s)).
Proof.
  cbv zeta.
  pose proof (py_min_pos (max_power s * 0.25) (energy_level s)) as Hpos.
  unfold start_discharging, _discharge_step, py_div.
  destruct (is_charging s) eqn:Hc; cbn [orb fst snd].
  { intuition discriminate. }
  destruct (is_discharging s) eqn:Hd; cbn [orb fst snd].
  { intuition discriminate. }
  destruct (Qle_bool (energy_level s) 0) eqn:Hempty; qprop; cbn [fst snd].
  { intuition (try discriminate; try lra). }
  cbn.
  destruct (Qle_bool (py_min (max_power s * 0.25) (energy_level s)) 0)
    eqn:Hamount; qprop; cbn.
  - assert (Hmp : ~ 0 < max_power s).
    { intro Hmp. assert (0 < py_min (max_power s * 0.25) (energy_level s))
        by (apply Hpos; lra). lra. }
    intuition (try discriminate; try lra).
  - apply Hpos in Hamount as [Hmp _].
    assert (Hmp' : 0 < max_power s) by lra.
    destruct (Qeq_bool (capacity s) 0) eqn:Hcap; qprop; cbn;
      intuition (try discriminate; try lra; try ring).
Qed.

(** X: a start that passes the mode and level tests but can move no energy
    (power not positive) returns [False] and is nevertheless not a no-op: the
    operation price, the start index and the interval counter have been
    overwritten, while level, cash and log are untouched. *)
Theorem start_without_power_overwrites_operation_fields
    (s : EnergyStorage) (price : Q) (time_index : Z) :
  is_charging s = false ->
  is_discharging s = false ->
  max_power s <= 0 ->
  (energy_level s < capacity s ->
   let r := start_charging price time_index s in
   fst r = Returns false
   /\ charging_price (snd r) = price
   /\ charging_start_index (snd r) = time_index
   /\ current_interval (snd r) = 0%Z
   /\ is_processing (snd r) = false
   /\ energy_level (snd r) = energy_level s
   /\ cash (snd r) = cash s
   /\ transactions (snd r) = transactions s
   /\ (charging_start_index s <> time_index -> snd r <> s))
  /\ (0 < energy_level s ->
      let r := start_discharging price time_index s in
      fst r = Returns false
      /\ discharging_price (snd r) = price
      /\ charging_start_index (snd r) = time_index
      /\ current_interval (snd r) = 0%Z
      /\ is_processing (snd r) = false
      /\ energy_level (snd r) = energy_level s
      /\ cash (snd r) = cash s
      /\ transactions (snd r) = transactions s
      /\ (charging_start_index s <> time_index -> snd r <> s)).
Proof.
  intros Hc Hd Hmp. split; intro Hlevel; cbv zeta.
  - assert (Hamount : Qle_bool (py_min (max_power s * 0.25)
                                  (capacity s - energy_level s)) 0 = true).
    { apply Qle_bool_iff.
      pose proof (py_min_le_l (max_power s * 0.25) (capacity s - energy_level s)).
      lra. }
    assert (Hfull : Qle_bool (capacity s) (energy_level s) = false)
      by (apply Qle_bool_false; exact Hlevel).
    unfold start_charging, _charge_step, is_processing.
    rewrite Hc, Hd, Hfull. cbn. rewrite Hamount. cbn.
    repeat (split; [first [reflexivity | assumption]|]).
    intros Hneq Heq. apply Hneq.
    apply (f_equal charging_start_index) in Heq. symmetry. exact Heq.
  - assert (Hamount : Qle_bool (py_min (max_power s * 0.25) (energy_level s)) 0
                      = true).
    { apply Qle_bool_iff.
      pose proof (py_min_le_l (max_power s * 0.25) (energy_level s)). lra. }
    assert (Hempty : Qle_bool (energy_level s) 0 = false)
      by (apply Qle_bool_false; exact Hlevel).
    unfold start_discharging, _discharge_step, is_processing.
    rewrite Hc, Hd, Hempty. cbn. rewrite Hamount. cbn.
    rewrite ?Hc, ?Hd. cbn [orb].
    repeat (split; [first [reflexivity | assumption]|]).
    intros Hneq Heq. apply Hneq.
    apply (f_equal charging_start_index) in Heq. symmetry. exact Heq.
Qed.

Lemma start_without_power_overwrites_operation_fields_witness :
  fst (start_charging 5 7 powerless_storage) = Returns false
  /\ charging_start_index (snd (start_charging 5 7 powerless_storage)) = 7%Z
  /\ snd (start_charging 5 7 powerless_storage) <> powerless_storage.
Proof.
  destruct (start_without_power_overwrites_operation_fields
              powerless_storage 5 7) as [H _].
  - reflexivity.
  - reflexivity.
  - vm_compute. discriminate.
  - destruct H as [Hr [_ [Hi [_ [_ [_ [_ [_ Hne]]]]]]]].
    + reflexivity.
    + split; [exact Hr|]. split; [exact Hi|]. apply Hne. discriminate.
Defined.

(** X: a call other than a reset never removes or alters a logged
    transaction; it appends none when it returns [False] and exactly one
    otherwise (also when the discharge step raises on a zero capacity). *)
Theorem call_appends_at_most_one_transaction (c : call) (s : EnergyStorage) :
  no_reset c = true ->
  exists new,
    transactions (exec c s) = transactions s ++ new
    /\ (fst (invoke c s) = Returns false -> new = [])
    /\ (fst (invoke c s) <> Returns false -> length new = 1%nat).
Proof.
  intro Hc.
  destruct c; try discriminate; unfold_methods; cbn; split_ifs; cbn;
    first
      [ exists []; split; [symmetry; apply app_nil_r|];
        split; [intros _; reflexivity
               |intro H; exfalso; apply H; reflexivity]
      | eexists; split; [reflexivity|]; split; [discriminate|reflexivity] ].
Qed.

Lemma call_appends_at_most_one_transaction_witness :
  exists new,
    transactions (exec (StartCharging 5 0) config_storage)
    = transactions config_storage ++ new
    /\ length new = 1%nat.
Proof.
  destruct (call_appends_at_most_one_transaction
              (StartCharging 5 0) config_storage) as [new [Hlog [_ Hone]]].
  - reflexivity.
  - exists new. split; [exact Hlog|]. apply Hone. vm_compute. discriminate.
Defined.

(** X: the lifetime accumulators never decrease: for a storage with a
    positive capacity, no sequence of calls lowers the charged energy, the
    gross energy withdrawn or the cycle count, nor (with a non-negative
    efficiency) the usable energy delivered. *)
Theorem lifetime_totals_never_decrease (s : EnergyStorage) (cs : list call) :
  0 < capacity s ->
  total_charged_energy s <= total_charged_energy (run_calls cs s)
  /\ total_gross_energy s <= total_gross_energy (run_calls cs s)
  /\ total_cycles s <= total_cycles (run_calls cs s)
  /\ (0 <= efficiency s ->
      total_discharged_energy s <= total_discharged_energy (run_calls cs s)).
Proof.
  intro Hcap.
  set (P := fun s' =>
     capacity s' = capacity s /\ efficiency s' = efficiency s
     /\ total_charged_energy s <= total_charged_energy s'
     /\ total_gross_energy s <= total_gross_energy s'
     /\ total_cycles s <= total_cycles s'
     /\ (0 <= efficiency s ->
         total_discharged_energy s <= total_discharged_energy s')).
  assert (H : P (run_calls cs s)).
  { apply (run_calls_always P).
    - intros c s' [Hc [He [H1 [H2 [H3 H4]]]]]. unfold P.
      rewrite exec_capacity, exec_efficiency.
      split; [exact Hc|]. split; [exact He|].
      destruct c; unfold_methods; cbn; split_ifs; cbn; qprop;
        try (rewrite Hc in *; lra);
        repeat split; try lra;
        try (intro Heff; specialize (H4 Heff); rewrite He; nra);
        try (assert (0 <= py_min (max_power s' * 0.25) (energy_level s')
                          / capacity s')
               by (apply Qle_shift_div_l; rewrite Hc; lra); lra).
    - unfold P. repeat split; try lra. }
  destruct H as [_ [_ [H1 [H2 [H3 H4]]]]]. auto.
Qed.

Lemma lifetime_totals_never_decrease_witness :
  total_cycles config_storage
  <= total_cycles
       (run_calls [StartCharging 5 0; ResetDailyTransactions;
                   StartDischarging 50 1] config_storage).
Proof.
  destruct (lifetime_totals_never_decrease config_storage
              [StartCharging 5 0; ResetDailyTransactions;
               StartDischarging 50 1]) as [_ [_ [H _]]].
  - reflexivity.
  - exact H.
Defined.

(** ** Whole operations *)

(** Replaces a [Qmin] or [Qmax] of the goal or of a hypothesis by its two
    cases. *)
Ltac split_minmax :=
  repeat match goal with
    | |- context [Qmin ?a ?b] =>
        let H := fresh in
        destruct (Q.min_spec a b) as [[? H]|[? H]];
        revert H; generalize (Qmin a b); intros ? H
    | |- context [Qmax ?a ?b] =>
        let H := fresh in
        destruct (Q.max_spec a b) as [[? H]|[? H]];
        revert H; generalize (Qmax a b); intros ? H
    | H0 : context [Qmin ?a ?b] |- _ =>
        let H := fresh in
        destruct (Q.min_spec a b) as [[? H]|[? H]];
        revert H0 H; generalize (Qmin a b); intros ? H0 H
    | H0 : context [Qmax ?a ?b] |- _ =>
        let H := fresh in
        destruct (Q.max_spec a b) as [[? H]|[? H]];
        revert H0 H; generalize (Qmax a b); intros ? H0 H
    end.

Lemma steps_cons (i : Z) (others : list Z) :
  steps (i :: others) == steps others + 1.
Proof.
  unfold steps. cbn [length]. rewrite (Nat2Z.inj_succ (S (length others))).
  rewrite <- Z.add_1_r, inject_Z_plus. reflexivity.
Qed.

Lemma steps_pos (others : list Z) : 1 <= steps others.
Proof.
  induction others as [|i others IH].
  - vm_compute. discriminate.
  - rewrite steps_cons. lra.
Qed.

(** One more step of a charging operation. *)
Lemma continue_charging (p e0 c0 : Q) (s0 s : EnergyStorage) (i : Z) :
  0 < max_power s0 ->
  charging_state p e0 c0 s0 s ->
  charging_state p e0 c0 s0 (exec (ContinueProcess i) s)
  /\ energy_level (exec (ContinueProcess i) s)
     == Qmin (energy_level s + max_power s0 * 0.25) (capacity s0).
Proof.
  intros Hmp [Hcap [Hpow [Hfee [Hprice [Hd [Hmode [Hle Hcash]]]]]]].
  pose proof (py_min_pos (max_power s * 0.25) (capacity s - energy_level s)) as Hpos.
  pose proof (py_min_le_l (max_power s * 0.25) (capacity s - energy_level s)) as Hl.
  pose proof (py_min_le_r (max_power s * 0.25) (capacity s - energy_level s)) as Hr.
  unfold charging_state, exec, invoke, continue_process, _charge_step.
  cbn. rewrite Hd.
  destruct (is_charging s) eqn:Hc.
  - destruct (Qle_bool (py_min (max_power s * 0.25) (capacity s - energy_level s)) 0)
      eqn:Hamount; qprop; cbn; rewrite ?Hcap, ?Hpow, ?Hfee, ?Hprice in *.
    + assert (Hfull : energy_level s == capacity s0).
      { destruct (Qlt_le_dec (energy_level s) (capacity s0)) as [Hlt|Hge];
          [|lra].
        assert (0 < py_min (max_power s0 * 0.25) (capacity s0 - energy_level s))
          by (apply Hpos; lra). lra. }
      clear Hpos.
      repeat split; try reflexivity; try assumption; try (right; exact Hfull).
      split_minmax; lra.
    + clear Hpos.
      pose proof (py_min_cases (max_power s0 * 0.25)
                    (capacity s0 - energy_level s)) as Hcases.
      revert Hl Hr Hamount Hcases.
      generalize (py_min (max_power s0 * 0.25) (capacity s0 - energy_level s)).
      intros amount Hl Hr Hamount Hcases.
      repeat split; try reflexivity; try assumption; try (left; exact Hc);
        try lra;
        destruct Hcases as [[? ?]|[? ?]]; split_minmax; lra.
  - destruct Hmode as [Hmode|Hfull]; [discriminate|]. clear Hpos.
    cbn. rewrite ?Hcap, ?Hpow, ?Hfee, ?Hprice in *.
    repeat split; try reflexivity; try assumption; try (right; exact Hfull).
    split_minmax; lra.
Qed.

Lemma continue_charging_many (p e0 c0 : Q) (s0 : EnergyStorage) (others : list Z) :
  0 < max_power s0 ->
  forall s,
    charging_state p e0 c0 s0 s ->
    charging_state p e0 c0 s0 (run_calls (map ContinueProcess others) s)
    /\ energy_level (run_calls (map ContinueProcess others) s)
       == Qmin (energy_level s
                + inject_Z (Z.of_nat (length others)) * (max_power s0 * 0.25))
            (capacity s0).
Proof.
  intro Hmp. induction others as [|i others IH]; intros s Hs.
  - split; [exact Hs|]. cbn [map run_calls fold_left length Z.of_nat].
    change (inject_Z 0) with 0.
    destruct Hs as [Hcap [_ [_ [_ [_ [_ [Hle _]]]]]]]. rewrite Hcap in Hle.
    split_minmax; lra.
  - destruct (continue_charging p e0 c0 s0 s i Hmp Hs) as [Hs1 He1].
    destruct (IH _ Hs1) as [Hs2 He2].
    split; [exact Hs2|].
    cbn [map run_calls fold_left] in *. unfold run_calls in *. rewrite He2.
    cbn [length]. rewrite Nat2Z.inj_succ, <- Z.add_1_r, inject_Z_plus.
    assert (Hn : 0 <= inject_Z (Z.of_nat (length others))).
    { change 0 with (inject_Z 0). rewrite <- Zle_Qle. lia. }
    set (n := inject_Z (Z.of_nat (length others))) in *.
    set (q := max_power s0 * 0.25) in *.
    assert (Hq : 0 < q) by (unfold q; lra).
    assert (Hnq : 0 <= n * q) by nra.
    change (inject_Z 1) with 1. clear IH Hs Hs1 Hs2 He2.
    revert He1. generalize (energy_level (exec (ContinueProcess i) s)).
    intros e1 He1.
    split_minmax; lra.
Qed.

Lemma start_charging_state (s : EnergyStorage) (p : Q) (i : Z) :
  is_charging s = false ->
  is_discharging s = false ->
  energy_level s < capacity s ->
  0 < max_power s ->
  charging_state p (energy_level s) (cash s) s (exec (StartCharging p i) s)
  /\ energy_level (exec (StartCharging p i) s)
     == Qmin (energy_level s + max_power s * 0.25) (capacity s).
Proof.
  intros Hc Hd Hlevel Hmp.
  pose proof (py_min_cases (max_power s * 0.25) (capacity s - energy_level s))
    as Hcases.
  assert (Hamount : 0 < py_min (max_power s * 0.25) (capacity s - energy_level s))
    by (apply py_min_pos; lra).
  unfold charging_state, exec, invoke, start_charging, _charge_step.
  rewrite Hc, Hd. cbn [orb].
  rewrite (proj2 (Qle_bool_false _ _) Hlevel). cbn.
  rewrite (proj2 (Qle_bool_false _ _) Hamount). cbn.
  revert Hamount Hcases.
  generalize (py_min (max_power s * 0.25) (capacity s - energy_level s)).
  intros amount Hamount Hcases.
  repeat split; try reflexivity; try assumption; try (left; reflexivity);
    destruct Hcases as [[? ?]|[? ?]]; split_minmax; lra.
Qed.

(** X: a charging operation (a start and any number of continuations) on an
    idle storage with room and power raises the level by the step size
    [max_power * 0.25] per call until the capacity is reached and no
    further; continuations past that point change nothing.  All of the
    energy is paid at the price of the start, plus the fee. *)
Theorem charging_operation_level_and_cost
    (s : EnergyStorage) (p : Q) (first : Z) (others : list Z) :
  is_charging s = false ->
  is_discharging s = false ->
  energy_level s < capacity s ->
  0 < max_power s ->
  let s' := run_calls (charging_operation p first others) s in
  energy_level s'
  == Qmin (energy_level s + steps others * (max_power s * 0.25)) (capacity s)
  /\ cash s' == cash s - (energy_level s' - energy_level s) * (p + fee_per_mwh s)
  /\ is_discharging s' = false.
Proof.
  intros Hc Hd Hlevel Hmp s'.
  destruct (start_charging_state s p first Hc Hd Hlevel Hmp) as [Hs1 He1].
  destruct (continue_charging_many p (energy_level s) (cash s) s others Hmp _ Hs1)
    as [Hs2 He2].
  change (run_calls (map ContinueProcess others) (exec (StartCharging p first) s))
    with s' in Hs2, He2.
  destruct Hs2 as [_ [_ [_ [_ [Hd' [_ [_ Hcash]]]]]]].
  split; [|split; assumption].
  rewrite He2. unfold steps.
  rewrite Nat2Z.inj_succ, <- Z.add_1_r, inject_Z_plus.
  change (inject_Z 1) with 1.
  assert (Hn : 0 <= inject_Z (Z.of_nat (length others))).
  { change 0 with (inject_Z 0). rewrite <- Zle_Qle. lia. }
  revert He1 Hn. generalize (energy_level (exec (StartCharging p first) s)).
  generalize (inject_Z (Z.of_nat (length others))).
  intros n e1 He1 Hn.
  assert (Hnq : 0 <= n * (max_power s * 0.25)) by nra.
  split_minmax; lra.
Qed.

Lemma charging_operation_level_and_cost_witness :
  energy_level
    (run_calls (charging_operation 5 0 [1; 2; 3; 4; 5; 6; 7; 8; 9]%Z)
       config_storage) == 1.
Proof.
  destruct (charging_operation_level_and_cost config_storage 5 0
              [1; 2; 3; 4; 5; 6; 7; 8; 9]%Z) as [H _].
  - reflexivity.
  - reflexivity.
  - reflexivity.
  - reflexivity.
  - rewrite H. reflexivity.
Defined.

(** One more step of a discharging operation. *)
Lemma continue_discharging (p e0 c0 n0 : Q) (s0 s : EnergyStorage) (i : Z) :
  0 < max_power s0 ->
  ~ capacity s0 == 0 ->
  discharging_state p e0 c0 n0 s0 s ->
  discharging_state p e0 c0 n0 s0 (exec (ContinueProcess i) s)
  /\ energy_level (exec (ContinueProcess i) s)
     == Qmax (energy_level s - max_power s0 * 0.25) 0.
Proof.
  intros Hmp Hnz [Hcap [Hpow [Hfee [Heff [Hprice [Hc [Hmode [Hlo [Hcash Hcyc]]]]]]]]].
  pose proof (py_min_cases (max_power s * 0.25) (energy_level s)) as Hcases.
  unfold discharging_state, exec, invoke, continue_process, _discharge_step, py_div.
  cbn. rewrite Hc.
  destruct (is_discharging s) eqn:Hd.
  - rewrite ?Hcap, ?Hpow, ?Hfee, ?Hprice, ?Heff in *.
    destruct (Qle_bool (py_min (max_power s0 * 0.25) (energy_level s)) 0)
      eqn:Hamount; qprop; cbn; rewrite ?Hcap, ?Hpow, ?Hfee, ?Hprice, ?Heff in *.
    + assert (Hzero : energy_level s == 0)
        by (destruct Hcases as [[? ?]|[? ?]]; lra).
      repeat split; try reflexivity; try assumption; try (right; exact Hzero).
      split_minmax; lra.
    + rewrite (proj2 (Qeq_bool_false _ _) Hnz). cbn.
      rewrite ?Hcap, ?Hpow, ?Hfee, ?Hprice, ?Heff in *.
      unfold Qdiv in *.
      revert Hamount Hcases.
      generalize (py_min (max_power s0 * 0.25) (energy_level s)).
      intros amount Hamount Hcases.
      repeat split; try reflexivity; try assumption; try (left; exact Hd);
        destruct Hcases as [[? ?]|[? ?]]; split_minmax; lra.
  - destruct Hmode as [Hmode|Hzero]; [discriminate|].
    cbn. rewrite ?Hcap, ?Hpow, ?Hfee, ?Hprice, ?Heff in *.
    repeat split; try reflexivity; try assumption; try (right; exact Hzero).
    split_minmax; lra.
Qed.

Lemma continue_discharging_many (p e0 c0 n0 : Q) (s0 : EnergyStorage)
    (others : list Z) :
  0 < max_power s0 ->
  ~ capacity s0 == 0 ->
  forall s,
    discharging_state p e0 c0 n0 s0 s ->
    discharging_state p e0 c0 n0 s0 (run_calls (map ContinueProcess others) s)
    /\ energy_level (run_calls (map ContinueProcess others) s)
       == Qmax (energy_level s
                - inject_Z (Z.of_nat (length others)) * (max_power s0 * 0.25))
            0.
Proof.
  intros Hmp Hnz. induction others as [|i others IH]; intros s Hs.
  - split; [exact Hs|]. cbn [map run_calls fold_left length Z.of_nat].
    change (inject_Z 0) with 0.
    destruct Hs as [_ [_ [_ [_ [_ [_ [_ [Hlo _]]]]]]]].
    split_minmax; lra.
  - destruct (continue_discharging p e0 c0 n0 s0 s i Hmp Hnz Hs) as [Hs1 He1].
    destruct (IH _ Hs1) as [Hs2 He2].
    split; [exact Hs2|].
    cbn [map run_calls fold_left] in *. unfold run_calls in *. rewrite He2.
    cbn [length]. rewrite Nat2Z.inj_succ, <- Z.add_1_r, inject_Z_plus.
    assert (Hn : 0 <= inject_Z (Z.of_nat (length others))).
    { change 0 with (inject_Z 0). rewrite <- Zle_Qle. lia. }
    set (n := inject_Z (Z.of_nat (length others))) in *.
    set (q := max_power s0 * 0.25) in *.
    assert (Hq : 0 < q) by (unfold q; lra).
    assert (Hnq : 0 <= n * q) by nra.
    change (inject_Z 1) with 1. clear IH Hs Hs1 Hs2 He2.
    revert He1. generalize (energy_level (exec (ContinueProcess i) s)).
    intros e1 He1.
    split_minmax; lra.
Qed.

Lemma start_discharging_state (s : EnergyStorage) (p : Q) (i : Z) :
  is_charging s = false ->
  is_discharging s = false ->
  0 < energy_level s ->
  0 < max_power s ->
  ~ capacity s == 0 ->
  discharging_state p (energy_level s) (cash s) (total_cycles s) s
    (exec (StartDischarging p i) s)
  /\ energy_level (exec (StartDischarging p i) s)
     == Qmax (energy_level s - max_power s * 0.25) 0.
Proof.
  intros Hc Hd Hlevel Hmp Hnz.
  pose proof (py_min_cases (max_power s * 0.25) (energy_level s)) as Hcases.
  assert (Hamount : 0 < py_min (max_power s * 0.25) (energy_level s))
    by (apply py_min_pos; lra).
  unfold discharging_state, exec, invoke, start_discharging, _discharge_step,
    py_div.
  rewrite Hc, Hd. cbn [orb].
  rewrite (proj2 (Qle_bool_false _ _) Hlevel). cbn.
  rewrite (proj2 (Qle_bool_false _ _) Hamount). cbn.
  rewrite (proj2 (Qeq_bool_false _ _) Hnz). cbn.
  unfold Qdiv.
  revert Hamount Hcases.
  generalize (py_min (max_power s * 0.25) (energy_level s)).
  intros amount Hamount Hcases.
  repeat split; try reflexivity; try assumption; try (left; reflexivity);
    destruct Hcases as [[? ?]|[? ?]]; split_minmax; lra.
Qed.

(** X: a discharging operation on an idle, non-empty storage with power
    lowers the level by the step size per call until the storage is empty
    and no further.  All the energy withdrawn is sold at the price of the
    start, less the fee, after the efficiency loss, and counts
    [withdrawn / capacity] cycles. *)
Theorem discharging_operation_level_and_revenue
    (s : EnergyStorage) (p : Q) (first : Z) (others : list Z) :
  is_charging s = false ->
  is_discharging s = false ->
  0 < energy_level s ->
  0 < max_power s ->
  ~ capacity s == 0 ->
  let s' := run_calls (discharging_operation p first others) s in
  let withdrawn := energy_level s - energy_level s' in
  energy_level s'
  == Qmax (energy_level s - steps others * (max_power s * 0.25)) 0
  /\ cash s' == cash s + withdrawn * efficiency s * (p - fee_per_mwh s)
  /\ total_cycles s' == total_cycles s + withdrawn / capacity s
  /\ is_charging s' = false.
Proof.
  intros Hc Hd Hlevel Hmp Hnz s' withdrawn.
  destruct (start_discharging_state s p first Hc Hd Hlevel Hmp Hnz) as [Hs1 He1].
  destruct (continue_discharging_many p (energy_level s) (cash s) (total_cycles s)
              s others Hmp Hnz _ Hs1) as [Hs2 He2].
  change (run_calls (map ContinueProcess others)
            (exec (StartDischarging p first) s)) with s' in Hs2, He2.
  destruct Hs2 as [_ [_ [_ [_ [_ [Hc' [_ [_ [Hcash Hcyc]]]]]]]]].
  split; [|split; [exact Hcash|split; assumption]].
  rewrite He2. unfold steps.
  rewrite Nat2Z.inj_succ, <- Z.add_1_r, inject_Z_plus.
  change (inject_Z 1) with 1.
  assert (Hn : 0 <= inject_Z (Z.of_nat (length others))).
  { change 0 with (inject_Z 0). rewrite <- Zle_Qle. lia. }
  revert He1 Hn. generalize (energy_level (exec (StartDischarging p first) s)).
  generalize (inject_Z (Z.of_nat (length others))).
  intros n e1 He1 Hn.
  assert (Hnq : 0 <= n * (max_power s * 0.25)) by nra.
  split_minmax; lra.
Qed.

Lemma discharging_operation_level_and_revenue_witness :
  let full := set_is_charging false
                (run_calls (charging_operation 5 0 [1; 2; 3; 4; 5; 6; 7]%Z)
                   config_storage) in
  energy_level (run_calls (discharging_operation 100 8 [9; 10]%Z) full)
  == 5 # 8.
Proof.
  intro full.
  destruct (discharging_operation_level_and_revenue full 100 8 [9; 10]%Z)
    as [H _].
  - reflexivity.
  - reflexivity.
  - reflexivity.
  - reflexivity.
  - vm_compute. discriminate.
  - rewrite H. reflexivity.
Defined.

(** ** Runs of the strategy: shape of the results *)

Lemma exec_log_grows (c : call) (s : EnergyStorage) :
  no_reset c = true ->
  exists new,
    transactions (exec c s) = transactions s ++ new /\ (length new <= 1)%nat.
Proof.
  intro Hc.
  destruct c; try discriminate; unfold_methods; cbn; split_ifs; cbn;
    first
      [ exists []; split; [symmetry; apply app_nil_r | cbn; lia]
      | eexists; split; [reflexivity | cbn; lia] ].
Qed.

Lemma loop_body_log (price_array : list Q) (window_size : Z) (st : Locals) :
  exists new,
    transactions (storage (snd (loop_body price_array window_size st)))
    = transactions (storage st) ++ new
    /\ (length new <= 1)%nat.
Proof.
  assert (Hcall' : forall c, no_reset c = true ->
            exists new, transactions (exec c (storage st))
                        = transactions (storage st) ++ new
                        /\ (length new <= 1)%nat)
    by (intros c Hc; apply exec_log_grows; exact Hc).
  body_cases st;
    match goal with
    | H : continue_process ?i _ = _ |- _ =>
        destruct (Hcall' (ContinueProcess i) eq_refl) as [new Hnew]
    | H : start_charging ?p ?i _ = _ |- _ =>
        destruct (Hcall' (StartCharging p i) eq_refl) as [new Hnew]
    | H : start_discharging ?p ?i _ = _ |- _ =>
        destruct (Hcall' (StartDischarging p i) eq_refl) as [new Hnew]
    | _ => idtac
    end;
    first
      [ unfold exec in Hnew; cbn in Hnew; rewrite Hcall in Hnew;
        exists new; exact Hnew
      | exists []; split; [symmetry; apply app_nil_r | cbn; lia] ].
Qed.

Lemma while_loop_shape (price_array : list Q) (window_size : Z) (fuel : nat) :
  forall st r st',
    (idx st <= length price_array)%nat ->
    while_loop price_array window_size fuel st = Some (r, st') ->
    exists entries new,
      energy_history st' = energy_history st ++ entries
      /\ map HistoryEntry.time_index entries = seq (idx st) (length entries)
      /\ (idx st + length entries <= length price_array)%nat
      /\ (r = Returns tt -> (idx st + length entries)%nat = length price_array)
      /\ transactions (storage st') = transactions (storage st) ++ new
      /\ (length new <= length entries)%nat.
Proof.
  induction fuel as [|fuel IH]; intros st r st' Hidx; cbn [while_loop].
  - destruct (idx st <? length price_array)%nat eqn:E; [discriminate|].
    apply Nat.ltb_ge in E. intro H. inversion H; subst.
    exists [], []. rewrite !app_nil_r. cbn. repeat split; lia.
  - destruct (idx st <? length price_array)%nat eqn:E.
    + apply Nat.ltb_lt in E.
      pose proof (loop_body_history price_array window_size st) as Hh.
      destruct (loop_body_log price_array window_size st) as [new0 [Hlog0 Hlen0]].
      destruct (loop_body price_array window_size st) as [[u|e] st1] eqn:Hbody;
        cbn [snd] in Hh, Hlog0.
      * intro Hloop. apply loop_body_idx in Hbody.
        destruct (IH st1 r st' ltac:(lia) Hloop)
          as [entries [new [He [Ht [Hle [Hret [Hlog Hlen]]]]]]].
        eexists (_ :: entries), (new0 ++ new).
        rewrite He, Hh, <- app_assoc. cbn [app].
        split; [reflexivity|]. cbn [map length seq HistoryEntry.time_index].
        rewrite Ht, Hbody.
        split; [reflexivity|]. split; [lia|]. split; [intro Hr; specialize (Hret Hr); lia|].
        rewrite Hlog, Hlog0, <- app_assoc. split; [reflexivity|].
        rewrite length_app. lia.
      * intro H. inversion H; subst.
        eexists [_], new0. rewrite Hh.
        split; [reflexivity|]. cbn. split; [reflexivity|].
        split; [lia|]. split; [discriminate|]. split; [exact Hlog0|lia].
    + apply Nat.ltb_ge in E. intro H. inversion H; subst.
      exists [], []. rewrite !app_nil_r. cbn. repeat split; lia.
Qed.

(** X: a run records one history entry per time index, in order: the
    history has as many entries as there are prices and entry [k] has
    [time_index = k].  (A run cut short by an exception has recorded the
    indices up to the one that raised.) *)
Theorem history_has_one_entry_per_index
    (price_array : list Q) (s0 : EnergyStorage) (window_size : option Z) :
  exists r st,
    simulate price_array s0 window_size = Some (r, st)
    /\ map HistoryEntry.time_index (energy_history st)
       = seq 0 (length (energy_history st))
    /\ (length (energy_history st) <= length price_array)%nat
    /\ (r = Returns tt -> length (energy_history st) = length price_array)
    /\ (~ capacity s0 == 0 ->
        r = Returns tt /\ length (energy_history st) = length price_array).
Proof.
  destruct (simulate_terminates price_array s0 window_size) as [r [st Hrun]].
  exists r, st. split; [exact Hrun|].
  pose proof Hrun as Hrun'. unfold simulate in Hrun'.
  apply while_loop_shape in Hrun'; [|cbn; lia].
  destruct Hrun' as [entries [new [He [Ht [Hle [Hret _]]]]]].
  cbn in He, Ht, Hle, Hret.
  rewrite He. repeat split; try assumption.
  - apply (simulate_returns _ _ _ _ _ H Hrun).
  - apply Hret. apply (simulate_returns _ _ _ _ _ H Hrun).
Qed.

(** X: a run never removes or rewrites a transaction that the storage had
    logged before, and appends at most one transaction per time index. *)
Theorem run_appends_at_most_one_transaction_per_index
    (price_array : list Q) (s0 : EnergyStorage) (window_size : option Z) :
  exists r st new,
    simulate price_array s0 window_size = Some (r, st)
    /\ transactions (storage st) = transactions s0 ++ new
    /\ (length new <= length price_array)%nat.
Proof.
  destruct (simulate_terminates price_array s0 window_size) as [r [st Hrun]].
  pose proof Hrun as Hrun'. unfold simulate in Hrun'.
  apply while_loop_shape in Hrun'; [|cbn; lia].
  destruct Hrun' as [entries [new [_ [_ [Hle [_ [Hlog Hlen]]]]]]].
  cbn in Hle, Hlog. exists r, st, new.
  split; [exact Hrun|]. split; [exact Hlog|]. lia.
Qed.

(** ** The trade decisions *)

(** X: a buy decision is only taken below 90 % of the capacity, at a price
    under the 20th percentile of the window whose 1.2-fold is under the
    window mean, and its target lies at least a tenth of the capacity above
    the current level and not above the capacity. *)
Theorem charge_decision_sound
    (s : EnergyStorage) (price : Q) (future_prices : list Q)
    (last_charge_price : float_inf) (target : Q) :
  charge_decision s price future_prices last_charge_price = Some target ->
  energy_level s < capacity s * 0.9
  /\ price < np.percentile future_prices 20
  /\ price * 1.2 < np.mean future_prices
  /\ (last_charge_price = PosInf
      \/ exists last, last_charge_price = Finite last /\ price < last * 0.95)
  /\ energy_level s + capacity s * 0.1 <= target
  /\ target <= capacity s.
Proof.
  unfold charge_decision.
  destruct (Qlt_bool (energy_level s) (capacity s * 0.9)) eqn:Hroom;
    [|discriminate].
  destruct (Qlt_bool price (np.percentile future_prices 20)) eqn:Hlow;
    [|discriminate].
  destruct (Qlt_bool (price * 1.2) (np.mean future_prices)) eqn:Hrise;
    [|discriminate].
  cbn [andb].
  destruct (lt_inf price (inf_mul last_charge_price 0.95) || is_inf last_charge_price)
    eqn:Hlast; [|discriminate].
  destruct (Qle_bool (capacity s * 0.1) _) eqn:Hsize; [|discriminate].
  intro H. inversion H as [Ht]. clear H. qprop.
  split; [exact Hroom|]. split; [exact Hlow|]. split; [exact Hrise|].
  split.
  - destruct last_charge_price as [last|]; [right|left; reflexivity].
    cbn in Hlast. rewrite orb_false_r in Hlast. qprop. eauto.
  - revert Hsize.
    generalize (if Qlt_bool price (np.percentile future_prices 10)
                then (capacity s - energy_level s) * 0.8
                else (capacity s - energy_level s) * 0.5).
    intros amount Hsize.
    pose proof (py_min_cases (energy_level s + amount) (capacity s)) as Hc.
    pose proof (py_min_le_r (energy_level s + amount) (capacity s)).
    split; [|assumption].
    destruct Hc as [[? ?]|[? ?]]; lra.
Qed.

Lemma charge_decision_sound_witness :
  exists target,
    charge_decision config_storage 5 low_first_prices PosInf = Some target
    /\ target <= 1.
Proof.
  eexists. split.
  - vm_compute. reflexivity.
  - eapply (charge_decision_sound config_storage 5 low_first_prices PosInf).
    vm_compute. reflexivity.
Defined.

Lemma py_max_cases (a b : Q) :
  (a < b /\ py_max a b == b) \/ (b <= a /\ py_max a b == a).
Proof.
  unfold py_max. destruct (Qlt_bool a b) eqn:E; qprop;
    [left|right]; split; lra.
Qed.

(** X: a sell decision is only taken above 10 % of the capacity, at a price
    over the 80th percentile of the window whose 0.9-fold is over the window
    mean, and its target lies at least a tenth of the capacity below the
    current level and not below 0. *)
Theorem discharge_decision_sound
    (s : EnergyStorage) (price : Q) (future_prices : list Q)
    (last_discharge_price target : Q) :
  discharge_decision s price future_prices last_discharge_price = Some target ->
  capacity s * 0.1 < energy_level s
  /\ np.percentile future_prices 80 < price
  /\ np.mean future_prices < price * 0.9
  /\ (last_discharge_price == 0 \/ last_discharge_price * 1.05 < price)
  /\ 0 <= target
  /\ target <= energy_level s - capacity s * 0.1.
Proof.
  unfold discharge_decision.
  destruct (Qlt_bool (capacity s * 0.1) (energy_level s)) eqn:Hroom;
    [|discriminate].
  destruct (Qlt_bool (np.percentile future_prices 80) price) eqn:Hhigh;
    [|discriminate].
  destruct (Qlt_bool (np.mean future_prices) (price * 0.9)) eqn:Hfall;
    [|discriminate].
  cbn [andb].
  destruct (Qlt_bool (last_discharge_price * 1.05) price
            || Qeq_bool last_discharge_price 0) eqn:Hlast; [|discriminate].
  destruct (Qle_bool (capacity s * 0.1) _) eqn:Hsize; [|discriminate].
  intro H. inversion H as [Ht]. clear H. qprop.
  split; [exact Hroom|]. split; [exact Hhigh|]. split; [exact Hfall|].
  split.
  - apply orb_true_iff in Hlast as [Hl|Hl]; qprop; [right|left]; assumption.
  - revert Hsize.
    generalize (if Qlt_bool (np.percentile future_prices 90) price
                then energy_level s * 0.8
                else energy_level s * 0.5).
    intros amount Hsize.
    pose proof (py_max_cases (energy_level s - amount) 0) as Hc.
    destruct Hc as [[? ?]|[? ?]]; split; lra.
Qed.

Lemma discharge_decision_sound_witness :
  exists target,
    discharge_decision
      (set_energy_level 0.75 config_storage) 100 spike_prices 0 = Some target
    /\ 0 <= target.
Proof.
  eexists. split.
  - vm_compute. reflexivity.
  - eapply (discharge_decision_sound (set_energy_level 0.75 config_storage)
              100 spike_prices 0).
    vm_compute. reflexivity.
Defined.

(** ** Windows without spread *)

Lemma sorted_constant (p : Q) (l : list Q) :
  Forall (eq p) l -> sorted l = l.
Proof.
  induction 1 as [|x l Hx Hl IH]; [reflexivity|].
  subst x. unfold sorted in *. cbn [fold_right]. rewrite IH.
  destruct l as [|y l']; [reflexivity|].
  inversion Hl; subst. cbn [insert_sorted].
  rewrite (proj2 (Qle_bool_iff y y) (Qle_refl y)). reflexivity.
Qed.

Lemma nth_constant (p : Q) (l : list Q) (k : nat) :
  Forall (eq p) l -> (k < length l)%nat -> nth k l 0 = p.
Proof.
  intros Hl Hk. rewrite Forall_forall in Hl. symmetry. apply Hl.
  apply nth_In. exact Hk.
Qed.

(** A percentile of a window whose prices are all the same is that price. *)
Lemma percentile_constant (p : Q) (l : list Q) (q : Q) :
  Forall (eq p) l -> l <> [] -> 0 <= q -> q <= 100 ->
  np.percentile l q == p.
Proof.
  intros Hl Hne Hq0 Hq1. unfold np.percentile.
  rewrite (sorted_constant p l Hl).
  set (n := Z.of_nat (length l)).
  assert (Hn : (1 <= n)%Z) by (destruct l; [contradiction|cbn in n; lia]).
  set (v := inject_Z (n - 1) * (q / 100)).
  assert (Hn1 : 0 <= inject_Z (n - 1)).
  { change 0 with (inject_Z 0). rewrite <- Zle_Qle. lia. }
  assert (Hq01 : 0 <= q / 100 /\ q / 100 <= 1).
  { split; [apply Qle_shift_div_l | apply Qle_shift_div_r]; lra. }
  assert (Hv0 : 0 <= v) by (unfold v; nra).
  assert (Hv1 : v <= inject_Z (n - 1)) by (unfold v; nra).
  assert (Hf0 : (0 <= Qfloor v)%Z).
  { change 0%Z with (Qfloor 0). apply Qfloor_resp_le. exact Hv0. }
  assert (Hf1 : (Qfloor v <= n - 1)%Z).
  { rewrite <- (Qfloor_Z (n - 1)). apply Qfloor_resp_le. exact Hv1. }
  rewrite !(nth_constant p l) by (try exact Hl; unfold n in *; lia).
  ring.
Qed.

(** On a window without spread neither decision fires. *)
Lemma constant_window_no_trade (s : EnergyStorage) (p : Q) (window : list Q)
    (last_charge : float_inf) (last_discharge : Q) :
  Forall (eq p) window -> window <> [] ->
  charge_decision s p window last_charge = None
  /\ discharge_decision s p window last_discharge = None.
Proof.
  intros Hw Hne.
  assert (H20 : np.percentile window 20 == p)
    by (apply percentile_constant; [assumption|assumption|lra|lra]).
  assert (H80 : np.percentile window 80 == p)
    by (apply percentile_constant; [assumption|assumption|lra|lra]).
  unfold charge_decision, discharge_decision.
  assert (Hlow : Qlt_bool p (np.percentile window 20) = false)
    by (apply Qlt_bool_false; lra).
  assert (Hhigh : Qlt_bool (np.percentile window 80) p = false)
    by (apply Qlt_bool_false; lra).
  rewrite Hlow, Hhigh. cbn [andb].
  split; split_ifs; reflexivity.
Qed.

(** An iteration on an idle storage at an index where no decision fires only
    records the history entry, binds [current_price] and advances. *)
Lemma loop_body_hold (price_array : list Q) (window_size : Z) (st : Locals)
    (p : Q) :
  is_processing (storage st) = false ->
  nth_error price_array (idx st) = Some p ->
  ((1 <=? Z.min window_size
            (Z.of_nat (length price_array) - Z.of_nat (idx st)))%Z = true ->
   charge_decision (storage st) p
     (future_prices_at price_array window_size (idx st)) (last_charge_price st)
   = None
   /\ discharge_decision (storage st) p
        (future_prices_at price_array window_size (idx st))
        (last_discharge_price st) = None) ->
  loop_body price_array window_size st =
  (Returns tt,
   set_idx (S (idx st))
     (set_current_price (Some p)
        (set_energy_history
           (energy_history st ++
            [{| HistoryEntry.time_index := idx st;
                HistoryEntry.energy_level := energy_level (storage st);
                HistoryEntry.action := 0%Z |}]) st))).
Proof.
  intros Hidle Hp Hnone.
  unfold is_processing in Hidle. apply orb_false_elim in Hidle as [Hc Hd].
  unfold future_prices_at in Hnone.
  unfold_engine. cbn. unfold is_processing. rewrite Hc, Hd, Hp. cbn.
  destruct (1 <=? _)%Z eqn:Hw; [|reflexivity].
  destruct (Hnone eq_refl) as [-> ->]. reflexivity.
Qed.

(** A run in which no decision ever fires leaves the storage as it was. *)
Lemma while_loop_never_trades (price_array : list Q) (window_size : Z)
    (s0 : EnergyStorage) :
  is_processing s0 = false ->
  (forall i p l ld,
      nth_error price_array i = Some p ->
      (1 <=? Z.min window_size
               (Z.of_nat (length price_array) - Z.of_nat i))%Z = true ->
      charge_decision s0 p (future_prices_at price_array window_size i) l = None
      /\ discharge_decision s0 p (future_prices_at price_array window_size i) ld
         = None) ->
  forall fuel st,
    storage st = s0 ->
    (length price_array - idx st <= fuel)%nat ->
    (idx st <= length price_array)%nat ->
    exists st',
      while_loop price_array window_size fuel st = Some (Returns tt, st')
      /\ storage st' = s0
      /\ energy_history st' =
         energy_history st ++
         map (fun i => {| HistoryEntry.time_index := i;
                          HistoryEntry.energy_level := energy_level s0;
                          HistoryEntry.action := 0%Z |})
           (seq (idx st) (length price_array - idx st)).
Proof.
  intros Hidle Hnone fuel.
  induction fuel as [|fuel IH]; intros st Hs Hfuel Hidx; cbn [while_loop].
  - destruct (idx st <? length price_array)%nat eqn:E.
    + apply Nat.ltb_lt in E. lia.
    + exists st. replace (length price_array - idx st)%nat with 0%nat by lia.
      cbn. rewrite app_nil_r. auto.
  - destruct (idx st <? length price_array)%nat eqn:E.
    + apply Nat.ltb_lt in E.
      destruct (nth_error price_array (idx st)) as [p|] eqn:Hp;
        [|apply nth_error_None in Hp; lia].
      rewrite (loop_body_hold price_array window_size st p);
        [| rewrite Hs; exact Hidle | exact Hp
         | intro Hw; rewrite Hs; apply Hnone; assumption].
      match goal with
      | |- exists st', while_loop _ _ _ ?st1 = _ /\ _ =>
          destruct (IH st1) as [st' [Hloop [Hs' Hh']]];
            [exact Hs | cbn; lia | cbn; lia |]
      end.
      exists st'. split; [exact Hloop|]. split; [exact Hs'|].
      rewrite Hh'. cbn [energy_history set_idx set_current_price
                        set_energy_history idx].
      rewrite <- app_assoc. f_equal.
      replace (length price_array - idx st)%nat
        with (S (length price_array - S (idx st)))%nat by lia.
      cbn [seq map app]. rewrite Hs. reflexivity.
    + exists st. apply Nat.ltb_ge in E.
      replace (length price_array - idx st)%nat with 0%nat by lia.
      cbn. rewrite app_nil_r. auto.
Qed.
